(** * dlutil: a configurable HTTP retrieval helper

    A shallow embedding of [badstatus.go] and of the download pipeline
    ([DownloadOptions], the [With...] option constructors, [Download],
    [DownloadBytes], [DownloadJSON], [matchContentType]).

    Conventions of the embedding.
    - Go [int] status codes are [Z]; [time.Duration] is [Z].
    - A Go value that may be [nil] (interface, pointer, map, func) is an
      [option]; an [error] result is [option error] with [None] for [nil].
    - [http.Header] is a finite map from keys to value lists.
    - The collaborators the package does not implement (the transport, the
      cache backend, the header-key canonicaliser, the media-type parser,
      the status-phrase table, the request constructor, the JSON decoder)
      are records of methods, fields of the class [GoStd], or class
      instances: every theorem holds for all of them.  Concrete instances
      follow the model; they are what the examples run on.
    - Effects are threaded through a state monad over [World]: the state
      of the external collaborators and the trace of the calls made on
      them (cache get/set, network exchange, close of a response body). *)

From Stdlib Require Import ZArith String Ascii DecimalString.
From stdpp Require Import base strings gmap list.

Open Scope Z_scope.
Open Scope string_scope.

(* ===================================================================== *)
(** ** badstatus.go *)
(* ===================================================================== *)

Record BadStatusError := { StatusCode : Z }.

(** [BadStatus(statusCode)] allocates a [BadStatusError]. *)
Definition BadStatus (statusCode : Z) : BadStatusError :=
  {| StatusCode := statusCode |}.

(** The [%d] verb of [fmt.Sprintf] on an [int]. *)
Definition itoa (n : Z) : string := NilEmpty.string_of_int (Z.to_int n).

(* ===================================================================== *)
(** ** Values exchanged with the collaborators *)
(* ===================================================================== *)

(** Go's [error] interface, as far as this package produces or forwards
    one: its own [*BadStatusError], an [errors.New] string, an error
    reported by a collaborator, and a value of a caller-chosen type that
    implements [error] (the [T] of [WithErrorType]). *)
Inductive error : Type :=
| ErrBadStatus (e : BadStatusError)
| ErrNew (msg : string)
| ErrExternal (msg : string)
| ErrTyped (T : Type) (v : T).

(** [context.Context]. *)
Inductive Context := Background | Derived (id : nat).

Definition Duration := Z.

(** An [io.Reader], by what reading it to the end yields: the bytes
    delivered and the error, if any, that ended the reading ([None] is a
    clean end of file). *)
Record Reader := { rd_data : string; rd_err : option error }.

(** [strings.NewReader] and [bytes.NewReader]. *)
Definition NewReader (content : string) : Reader :=
  {| rd_data := content; rd_err := None |}.

(** [io.ReadAll]. *)
Definition ReadAll (r : Reader) : string * option error :=
  (rd_data r, rd_err r).

(** The body of a network response: a reader that must be closed.  The
    identifier names the stream in [EvClose] events. *)
Record http_Body := { body_id : nat; body_reader : Reader }.

(** The [io.ReadCloser] values [Download] hands out: the response body
    itself, or [io.NopCloser] over an in-memory reader. *)
Inductive ReadCloser :=
| RespBody (b : http_Body)
| NopCloser (r : Reader).

Definition reader_of (rc : ReadCloser) : Reader :=
  match rc with
  | RespBody b => body_reader b
  | NopCloser r => r
  end.

Abbreviation http_Header := (gmap string (list string)).

Record http_Request := {
  req_ctx : Context;
  req_method : string;
  req_url : string;
  req_body : option Reader;
  req_header : http_Header;
}.

Record http_Response := {
  resp_StatusCode : Z;
  resp_Header : http_Header;
  resp_Body : http_Body;
}.

(** What a call leaves behind on the collaborators. *)
Inductive event :=
| EvCacheGet (key : string)
| EvCacheSet (key value : string) (ttl : Duration)
| EvDo (req : http_Request)
| EvClose (id : nat).

(** The result of a Go function returning [(A, error)], or a panic. *)
Inductive outcome (A : Type) :=
| Returned (val : option A) (err : option error)
| Panic (msg : string).
Arguments Returned {A} val err.
Arguments Panic {A} msg.

(** [encoding/json]: [json.NewDecoder(r).Decode(&v)] for a target of
    type [T] either fails or yields the decoded value. *)
Class JSONDecode (T : Type) := json_Decode : Reader -> error + T.

Section Model.

(** State of the external collaborators (network, cache backends). *)
Context {Ext : Type}.

Record World := { ext : Ext; trace : list event }.

(** The state monad the pipeline runs in. *)
Definition M (A : Type) : Type := World -> A * World.

Definition ret {A} (a : A) : M A := fun w => (a, w).

Definition bind {A B} (m : M A) (k : A -> M B) : M B :=
  fun w => let (a, w') := m w in k a w'.

Notation "x <~ m ;; k" := (bind m (fun x => k))
  (at level 100, m at next level, right associativity).

Definition emit (e : event) : M unit :=
  fun w => (tt, {| ext := ext w; trace := (trace w ++ [e])%list |}).

(** The world once the events [evs] have been added to its trace. *)
Definition logged (w : World) (evs : list event) : World :=
  {| ext := ext w; trace := (trace w ++ evs)%list |}.


(** Lifts a collaborator's step on [Ext] and records the call. *)
Definition call {A} (e : event) (f : Ext -> A * Ext) : M A :=
  fun w => let (a, x) := f (ext w) in
           (a, {| ext := x; trace := (trace w ++ [e])%list |}).

(** [razcache.Cache], the two methods the package calls. *)
Record razcache_Cache := {
  cache_Get : string -> Ext -> (string * option error) * Ext;
  cache_Set : string -> string -> Duration -> Ext -> option error * Ext;
}.

(** [*http.Client]: [Do] returns a response or an error. *)
Record http_Client := {
  client_Do : http_Request -> Ext -> (error + http_Response) * Ext;
}.

Definition Get (c : razcache_Cache) (key : string)
  : M (string * option error) :=
  call (EvCacheGet key) (cache_Get c key).

Definition Set_ (c : razcache_Cache) (key value : string) (ttl : Duration)
  : M (option error) :=
  call (EvCacheSet key value ttl) (cache_Set c key value ttl).

Definition Do (c : http_Client) (req : http_Request)
  : M (error + http_Response) :=
  call (EvDo req) (client_Do c req).

(** [body.Close()]; the error it returns is dropped by every caller. *)
Definition Close (rc : ReadCloser) : M unit :=
  match rc with
  | RespBody b => emit (EvClose (body_id b))
  | NopCloser _ => ret tt
  end.

(** *** The Go standard library, as far as the package relies on it *)

Class GoStd := {
  (** [textproto.CanonicalMIMEHeaderKey]. *)
  CanonicalMIMEHeaderKey : string -> string;
  (** The media type returned by [mime.ParseMediaType]; the parameters
      and the error it also returns are discarded by the only caller. *)
  ParseMediaType : string -> string;
  (** [http.StatusText]. *)
  StatusText : Z -> string;
  (** [http.NewRequestWithContext(ctx, method, url, body)]. *)
  NewRequestWithContext :
    option Context -> string -> string -> option Reader ->
    error + http_Request;
  (** [http.DefaultClient]. *)
  DefaultClient : http_Client;
}.

Context {std : GoStd}.

(** [BadStatusError.Error]: [fmt.Sprintf("%d %s", code, StatusText(code))]. *)
Definition BadStatusError_Error (e : BadStatusError) : string :=
  itoa (StatusCode e) ++ " " ++ StatusText (StatusCode e).

(** [Header.Set], [Header.Add], [Header.Get], [Header.Values]. *)
Definition Header_Set (h : http_Header) (key value : string) : http_Header :=
  <[CanonicalMIMEHeaderKey key := [value]]> h.

Definition Header_Values (h : http_Header) (key : string) : list string :=
  default [] (h !! CanonicalMIMEHeaderKey key).

Definition Header_Add (h : http_Header) (key value : string) : http_Header :=
  <[CanonicalMIMEHeaderKey key := (Header_Values h key ++ [value])%list]> h.

Definition Header_Get (h : http_Header) (key : string) : string :=
  match Header_Values h key with
  | [] => ""
  | v :: _ => v
  end.

(* ===================================================================== *)
(** ** Options *)
(* ===================================================================== *)

Record DownloadOptions := {
  Ctx : option Context;
  Client : option http_Client;
  Cache : option razcache_Cache;
  CacheKey : string;
  CacheTTL : Duration;
  GenError : option (Reader -> Z -> option error);
  Method : string;
  Body : option Reader;
  BodyContentType : string;
  Header : option http_Header;
  AcceptContentType : string;
  IgnoreStatusCode : bool;
}.

(** The zero value of the fields the declaration leaves out. *)
Definition DefaultDownloadOptions : DownloadOptions := {|
  Ctx := Some Background;
  Client := Some DefaultClient;
  Cache := None;
  CacheKey := "";
  CacheTTL := 0;
  GenError := None;
  Method := "GET";
  Body := None;
  BodyContentType := "";
  Header := None;
  AcceptContentType := "";
  IgnoreStatusCode := false;
|}.

(** A [DownloadOption] is a function on a pointer to [DownloadOptions]:
    the update it performs on the record it is handed. *)
Definition DownloadOption : Type := DownloadOptions -> DownloadOptions.

Definition WithContext (ctx : option Context) : DownloadOption := fun do =>
  {| Ctx := match ctx with
            | None => Some Background
            | Some c => Some c
            end;
     Client := Client do; Cache := Cache do;
     CacheKey := CacheKey do; CacheTTL := CacheTTL do;
     GenError := GenError do; Method := Method do; Body := Body do;
     BodyContentType := BodyContentType do; Header := Header do;
     AcceptContentType := AcceptContentType do;
     IgnoreStatusCode := IgnoreStatusCode do |}.

Definition WithClient (client : option http_Client) : DownloadOption := fun do =>
  {| Ctx := Ctx do;
     Client := match client with
               | None => Some DefaultClient
               | Some c => Some c
               end;
     Cache := Cache do;
     CacheKey := CacheKey do; CacheTTL := CacheTTL do;
     GenError := GenError do; Method := Method do; Body := Body do;
     BodyContentType := BodyContentType do; Header := Header do;
     AcceptContentType := AcceptContentType do;
     IgnoreStatusCode := IgnoreStatusCode do |}.

Definition WithCache (cache : option razcache_Cache) (key : string)
    (ttl : Duration) : DownloadOption := fun do =>
  {| Ctx := Ctx do; Client := Client do; Cache := cache;
     CacheKey := key; CacheTTL := ttl;
     GenError := GenError do; Method := Method do; Body := Body do;
     BodyContentType := BodyContentType do; Header := Header do;
     AcceptContentType := AcceptContentType do;
     IgnoreStatusCode := IgnoreStatusCode do |}.

(** The error factory [WithErrorType[T]] installs: decode the body as a
    [T]; a failed decode gives [BadStatus(code)], not the decode error. *)
Definition errorFactory (T : Type) `{JSONDecode T} (r : Reader) (code : Z)
  : option error :=
  match json_Decode r with
  | inl _ => Some (ErrBadStatus (BadStatus code))
  | inr result => Some (ErrTyped T result)
  end.

Definition WithErrorType (T : Type) `{JSONDecode T} : DownloadOption := fun do =>
  {| Ctx := Ctx do; Client := Client do; Cache := Cache do;
     CacheKey := CacheKey do; CacheTTL := CacheTTL do;
     GenError := Some (errorFactory T); Method := Method do;
     Body := Body do;
     BodyContentType := BodyContentType do; Header := Header do;
     AcceptContentType := AcceptContentType do;
     IgnoreStatusCode := IgnoreStatusCode do |}.

Definition WithMethod (method : string) : DownloadOption := fun do =>
  {| Ctx := Ctx do; Client := Client do; Cache := Cache do;
     CacheKey := CacheKey do; CacheTTL := CacheTTL do;
     GenError := GenError do; Method := method; Body := Body do;
     BodyContentType := BodyContentType do; Header := Header do;
     AcceptContentType := AcceptContentType do;
     IgnoreStatusCode := IgnoreStatusCode do |}.

Definition WithBody (body : option Reader) (contentType : string)
  : DownloadOption := fun do =>
  {| Ctx := Ctx do; Client := Client do; Cache := Cache do;
     CacheKey := CacheKey do; CacheTTL := CacheTTL do;
     GenError := GenError do; Method := Method do; Body := body;
     BodyContentType := contentType; Header := Header do;
     AcceptContentType := AcceptContentType do;
     IgnoreStatusCode := IgnoreStatusCode do |}.

(** The header map [WithHeader] leaves in the options: a nil map is made
    first, [Set] writes [value0], then each further value is [Add]ed. *)
Definition headerWith (h : option http_Header) (key value0 : string)
    (values : list string) : http_Header :=
  fold_left (fun h value => Header_Add h key value) values
            (Header_Set (default ∅ h) key value0).

Definition WithHeader (key value0 : string) (values : list string)
  : DownloadOption := fun do =>
  {| Ctx := Ctx do; Client := Client do; Cache := Cache do;
     CacheKey := CacheKey do; CacheTTL := CacheTTL do;
     GenError := GenError do; Method := Method do; Body := Body do;
     BodyContentType := BodyContentType do;
     Header := Some (headerWith (Header do) key value0 values);
     AcceptContentType := AcceptContentType do;
     IgnoreStatusCode := IgnoreStatusCode do |}.

(** [fakeuseragent.RandomUserAgent()] is evaluated when the option is
    built; [ua] is the string it returned. *)
Definition WithFakeUserAgent (ua : string) : DownloadOption :=
  WithHeader "User-Agent" ua [].

Definition WithAcceptContentType (contentType : string) : DownloadOption :=
  fun do =>
  {| Ctx := Ctx do; Client := Client do; Cache := Cache do;
     CacheKey := CacheKey do; CacheTTL := CacheTTL do;
     GenError := GenError do; Method := Method do; Body := Body do;
     BodyContentType := BodyContentType do; Header := Header do;
     AcceptContentType := contentType;
     IgnoreStatusCode := IgnoreStatusCode do |}.

Definition WithIgnoreStatusCode : DownloadOption := fun do =>
  {| Ctx := Ctx do; Client := Client do; Cache := Cache do;
     CacheKey := CacheKey do; CacheTTL := CacheTTL do;
     GenError := GenError do; Method := Method do; Body := Body do;
     BodyContentType := BodyContentType do; Header := Header do;
     AcceptContentType := AcceptContentType do;
     IgnoreStatusCode := true |}.


(** The values the options hold for a header key ([Header.Values] on
    [opts.Header], nil or not). *)
Definition configuredValues (opts : DownloadOptions) (key : string)
  : list string :=
  Header_Values (default ∅ (Header opts)) key.

(** [opts := DefaultDownloadOptions; for _, o := range o { o(&opts) }]. *)
Definition applyOptions (o : list DownloadOption) : DownloadOptions :=
  fold_left (fun opts f => f opts) o DefaultDownloadOptions.

(* ===================================================================== *)
(** ** The retrieval pipeline *)
(* ===================================================================== *)

(** [len(s)] of a Go string. *)
Definition len (s : string) : Z := Z.of_nat (String.length s).

Definition matchContentType (resp : http_Response) (contentType : string)
  : bool :=
  let parsedType := ParseMediaType (Header_Get (resp_Header resp) "Content-Type") in
  String.eqb contentType parsedType.

Definition withHeader (req : http_Request) (h : http_Header) : http_Request :=
  {| req_ctx := req_ctx req; req_method := req_method req;
     req_url := req_url req; req_body := req_body req; req_header := h |}.

(** The request [Download] sends: the constructor's request, every
    configured header key assigned over it, then [Content-Type] set when
    a body content type is configured. *)
Definition buildRequest (url : string) (opts : DownloadOptions)
  : error + http_Request :=
  match NewRequestWithContext (Ctx opts) (Method opts) url (Body opts) with
  | inl err => inl err
  | inr req =>
      let h := default ∅ (Header opts) ∪ req_header req in
      let h := if (0 <? len (BodyContentType opts))%Z
               then Header_Set h "Content-Type" (BodyContentType opts)
               else h in
      inr (withHeader req h)
  end.

(** Where the first half of [Download] leaves the call: it has returned
    (or panicked), or it holds a response. *)
Inductive fetched :=
| Early (out : outcome ReadCloser)
| Got (resp : http_Response).

(** [Download], from the cache lookup to [opts.Client.Do(req)]. *)
Definition fetch (url : string) (opts : DownloadOptions) : M fetched :=
  hit <~ match Cache opts with
         | Some cache =>
             r <~ Get cache (CacheKey opts) ;;
             match r.2 with
             | None => ret (Some r.1)
             | Some _ => ret None
             end
         | None => ret None
         end ;;
  match hit with
  | Some content =>
      ret (Early (Returned (Some (NopCloser (NewReader content))) None))
  | None =>
      match buildRequest url opts with
      | inl err => ret (Early (Returned None (Some err)))
      | inr req =>
          match Client opts with
          | None => ret (Early (Panic "nil pointer dereference"))
          | Some client =>
              r <~ Do client req ;;
              match r with
              | inl err => ret (Early (Returned None (Some err)))
              | inr resp => ret (Got resp)
              end
          end
      end
  end.

(** [resp.StatusCode < 200 || resp.StatusCode >= 400]. *)
Definition badStatusCode (code : Z) : bool := (code <? 200)%Z || (400 <=? code)%Z.

(** The cache write-through and the final [return body, nil]. *)
Definition writeThrough (opts : DownloadOptions) (resp : http_Response)
  : M (outcome ReadCloser) :=
  let body := resp_Body resp in
  match Cache opts with
  | Some cache =>
      let (content, err) := ReadAll (body_reader body) in
      match err with
      | Some e =>
          _ <~ Close (RespBody body) ;;
          ret (Returned None (Some e))
      | None =>
          _ <~ Set_ cache (CacheKey opts) content (CacheTTL opts) ;;
          ret (Returned (Some (NopCloser (NewReader content))) None)
      end
  | None => ret (Returned (Some (RespBody body)) None)
  end.

(** The accept-content-type check, then the write-through. *)
Definition checkContentType (opts : DownloadOptions) (resp : http_Response)
  : M (outcome ReadCloser) :=
  let body := resp_Body resp in
  if (0 <? len (AcceptContentType opts))%Z
     && negb (matchContentType resp (AcceptContentType opts))
  then
    _ <~ Close (RespBody body) ;;
    ret (Returned None
           (Some (ErrNew ("bad content-type: "
                          ++ Header_Get (resp_Header resp) "Content-Type"))))
  else writeThrough opts resp.

(** The bad-status branch that does not use the error factory. *)
Definition checkIgnore (opts : DownloadOptions) (resp : http_Response)
  : M (outcome ReadCloser) :=
  let body := resp_Body resp in
  if negb (IgnoreStatusCode opts)
  then
    _ <~ Close (RespBody body) ;;
    ret (Returned None (Some (ErrBadStatus (BadStatus (resp_StatusCode resp)))))
  else checkContentType opts resp.

(** [Download], from [body := resp.Body] to the end.  In the factory
    branch the deferred [body.Close()] runs once the factory has produced
    the error to return. *)
Definition respond (opts : DownloadOptions) (resp : http_Response)
  : M (outcome ReadCloser) :=
  let body := resp_Body resp in
  if badStatusCode (resp_StatusCode resp)
  then
    match GenError opts with
    | Some gen =>
        if matchContentType resp "application/json"
        then
          let err := gen (body_reader body) (resp_StatusCode resp) in
          _ <~ Close (RespBody body) ;;
          ret (Returned None err)
        else checkIgnore opts resp
    | None => checkIgnore opts resp
    end
  else checkContentType opts resp.

(** When the status step of [respond] lets the response through to the
    content-type check: the status is in range, or the flag is set and
    the factory branch is not taken. *)
Definition statusPasses (opts : DownloadOptions) (resp : http_Response)
  : Prop :=
  badStatusCode (resp_StatusCode resp) = false
  \/ (IgnoreStatusCode opts = true
      /\ (GenError opts = None
          \/ matchContentType resp "application/json" = false)).

Definition Download (url : string) (o : list DownloadOption)
  : M (outcome ReadCloser) :=
  let opts := applyOptions o in
  f <~ fetch url opts ;;
  match f with
  | Early out => ret out
  | Got resp => respond opts resp
  end.

Definition DownloadBytes (url : string) (o : list DownloadOption)
  : M (outcome string) :=
  r <~ Download url o ;;
  match r with
  | Panic msg => ret (Panic msg)
  | Returned _ (Some err) => ret (Returned None (Some err))
  | Returned None None => ret (Panic "nil pointer dereference")
  | Returned (Some body) None =>
      let (content, err) := ReadAll (reader_of body) in
      _ <~ Close body ;;
      match err with
      | Some e => ret (Returned None (Some e))
      | None => ret (Returned (Some content) None)
      end
  end.

Definition DownloadJSON (T : Type) `{JSONDecode T} (url : string)
    (o : list DownloadOption) : M (outcome T) :=
  r <~ Download url (o ++ [WithAcceptContentType "application/json"])%list ;;
  match r with
  | Panic msg => ret (Panic msg)
  | Returned _ (Some err) => ret (Returned None (Some err))
  | Returned None None => ret (Panic "nil pointer dereference")
  | Returned (Some body) None =>
      let decoded : error + T := json_Decode (reader_of body) in
      _ <~ Close body ;;
      match decoded with
      | inl err => ret (Returned None (Some err))
      | inr result => ret (Returned (Some result) None)
      end
  end.

(** The cache gate lets the call through to the network: there is no
    cache, or the lookup under the configured key returns an error.
    [w0] is the world the gate leaves behind. *)
Definition gateMisses (opts : DownloadOptions) (w w0 : World) : Prop :=
  match Cache opts with
  | None => w0 = w
  | Some c =>
      (cache_Get c (CacheKey opts) (ext w)).1.2 <> None
      /\ w0 = {| ext := (cache_Get c (CacheKey opts) (ext w)).2;
                 trace := (trace w ++ [EvCacheGet (CacheKey opts)])%list |}
  end.

(** The kinds of events, and how many of a kind a trace holds. *)
Definition isDoEvent (e : event) : bool :=
  match e with EvDo _ => true | _ => false end.
Definition isCloseEvent (e : event) : bool :=
  match e with EvClose _ => true | _ => false end.
Definition isCacheGetEvent (e : event) : bool :=
  match e with EvCacheGet _ => true | _ => false end.
Definition isCacheSetEvent (e : event) : bool :=
  match e with EvCacheSet _ _ _ => true | _ => false end.

Definition countEvents (p : event -> bool) (evs : list event) : nat :=
  length (List.filter p evs).

End Model.

Arguments World : clear implicits.
Arguments M : clear implicits.
Arguments razcache_Cache : clear implicits.
Arguments http_Client : clear implicits.
Arguments GoStd : clear implicits.
Arguments DownloadOptions : clear implicits.
Arguments DownloadOption : clear implicits.

(* ===================================================================== *)
(** ** Instances of the collaborators *)
(* ===================================================================== *)

(** The theorems below hold for every [GoStd], cache and transport.  The
    instances of this part are the ones the examples are evaluated on. *)

Module Std.

Definition between (lo hi c : ascii) : bool :=
  (Ascii.leb lo c && Ascii.leb c hi)%bool.

Definition isLower (c : ascii) : bool := between "a" "z" c.
Definition isUpper (c : ascii) : bool := between "A" "Z" c.
Definition isDigit (c : ascii) : bool := between "0" "9" c.

Definition toUpper (c : ascii) : ascii :=
  if isLower c then ascii_of_nat (nat_of_ascii c - 32) else c.
Definition toLower (c : ascii) : ascii :=
  if isUpper c then ascii_of_nat (nat_of_ascii c + 32) else c.

Fixpoint forallb_string (p : ascii -> bool) (s : string) : bool :=
  match s with
  | EmptyString => true
  | String c s' => (p c && forallb_string p s')%bool
  end.

Fixpoint map_string (f : ascii -> ascii) (s : string) : string :=
  match s with
  | EmptyString => EmptyString
  | String c s' => String (f c) (map_string f s')
  end.

Fixpoint existsb_string (p : ascii -> bool) (s : string) : bool :=
  match s with
  | EmptyString => false
  | String c s' => (p c || existsb_string p s')%bool
  end.

(** The bytes allowed in a header field name (RFC 7230 token). *)
Definition validHeaderFieldByte (c : ascii) : bool :=
  (isLower c || isUpper c || isDigit c
   || existsb_string (Ascii.eqb c) "!#$%&'*+-.^_`|~")%bool.

Fixpoint canonicalize (upper : bool) (s : string) : string :=
  match s with
  | EmptyString => EmptyString
  | String c s' =>
      let c' := if upper then toUpper c else toLower c in
      String c' (canonicalize (Ascii.eqb c' "-") s')
  end.

(** [textproto.CanonicalMIMEHeaderKey]: a key made of field-name bytes
    gets an upper-case first letter and an upper-case letter after every
    hyphen, the other letters lower-case; any other key is returned as
    it is. *)
Definition canonicalMIMEHeaderKey (s : string) : string :=
  if forallb_string validHeaderFieldByte s then canonicalize true s else s.

(** The part of a string before the first [c]. *)
Fixpoint before (c : ascii) (s : string) : string :=
  match s with
  | EmptyString => EmptyString
  | String d s' => if Ascii.eqb c d then EmptyString else String d (before c s')
  end.

Fixpoint trimLeft (s : string) : string :=
  match s with
  | String c s' => if Ascii.is_space c then trimLeft s' else s
  | EmptyString => EmptyString
  end.

Fixpoint rev_string (acc s : string) : string :=
  match s with
  | EmptyString => acc
  | String c s' => rev_string (String c acc) s'
  end.

Definition trimSpace (s : string) : string :=
  rev_string "" (trimLeft (rev_string "" (trimLeft s))).

(** [mime.ParseMediaType], first result, on a header value whose
    parameters are well formed: the text before the first semicolon, in
    lower case, without surrounding white space.  (The parameter list is
    not examined by this instance.) *)
Definition mediaType (v : string) : string :=
  trimSpace (map_string toLower (before ";" v)).

(** [http.StatusText]. *)
Definition statusText (code : Z) : string :=
  match code with
  | 100 => "Continue"
  | 101 => "Switching Protocols"
  | 102 => "Processing"
  | 103 => "Early Hints"
  | 200 => "OK"
  | 201 => "Created"
  | 202 => "Accepted"
  | 203 => "Non-Authoritative Information"
  | 204 => "No Content"
  | 205 => "Reset Content"
  | 206 => "Partial Content"
  | 207 => "Multi-Status"
  | 208 => "Already Reported"
  | 226 => "IM Used"
  | 300 => "Multiple Choices"
  | 301 => "Moved Permanently"
  | 302 => "Found"
  | 303 => "See Other"
  | 304 => "Not Modified"
  | 305 => "Use Proxy"
  | 307 => "Temporary Redirect"
  | 308 => "Permanent Redirect"
  | 400 => "Bad Request"
  | 401 => "Unauthorized"
  | 402 => "Payment Required"
  | 403 => "Forbidden"
  | 404 => "Not Found"
  | 405 => "Method Not Allowed"
  | 406 => "Not Acceptable"
  | 407 => "Proxy Authentication Required"
  | 408 => "Request Timeout"
  | 409 => "Conflict"
  | 410 => "Gone"
  | 411 => "Length Required"
  | 412 => "Precondition Failed"
  | 413 => "Request Entity Too Large"
  | 414 => "Request URI Too Long"
  | 415 => "Unsupported Media Type"
  | 416 => "Requested Range Not Satisfiable"
  | 417 => "Expectation Failed"
  | 418 => "I'm a teapot"
  | 421 => "Misdirected Request"
  | 422 => "Unprocessable Entity"
  | 423 => "Locked"
  | 424 => "Failed Dependency"
  | 425 => "Too Early"
  | 426 => "Upgrade Required"
  | 428 => "Precondition Required"
  | 429 => "Too Many Requests"
  | 431 => "Request Header Fields Too Large"
  | 451 => "Unavailable For Legal Reasons"
  | 500 => "Internal Server Error"
  | 501 => "Not Implemented"
  | 502 => "Bad Gateway"
  | 503 => "Service Unavailable"
  | 504 => "Gateway Timeout"
  | 505 => "HTTP Version Not Supported"
  | 506 => "Variant Also Negotiates"
  | 507 => "Insufficient Storage"
  | 508 => "Loop Detected"
  | 510 => "Not Extended"
  | 511 => "Network Authentication Required"
  | _ => ""
  end.

(** [http.NewRequestWithContext]: an empty method means [GET]; a method
    that is not a token and a nil context are refused; the request starts
    with an empty header.  (URL syntax errors are not reproduced by this
    instance.) *)
Definition newRequestWithContext (ctx : option Context) (method url : string)
    (body : option Reader) : error + http_Request :=
  let method := if String.eqb method "" then "GET" else method in
  if negb (forallb_string validHeaderFieldByte method)
  then inl (ErrExternal ("net/http: invalid method " ++ method))
  else match ctx with
       | None => inl (ErrNew "net/http: nil Context")
       | Some c =>
           inr {| req_ctx := c; req_method := method; req_url := url;
                  req_body := body; req_header := ∅ |}
       end.

(** A store-backed cache and a canned transport: the external state is
    the content of the store. *)
Definition Store : Type := gmap string string.

Definition mapCache : razcache_Cache Store := {|
  cache_Get := fun key (st : gmap string string) =>
    match st !! key with
    | Some content => ((content, None), st)
    | None => (("", Some (ErrExternal "cache: key not found")), st)
    end;
  cache_Set := fun key value _ (st : gmap string string) =>
    (None, <[key := value]> st);
|}.

(** A transport that answers every request with [resp]. *)
Definition cannedClient (resp : http_Response) : http_Client Store :=
  {| client_Do := fun _ st => (inr resp, st) |}.

(** A transport without a network. *)
(** A cache that holds nothing and refuses every write. *)
Definition readOnlyCache : razcache_Cache Store := {|
  cache_Get := fun _ (st : gmap string string) =>
    (("", Some (ErrExternal "cache: key not found")), st);
  cache_Set := fun _ _ _ (st : gmap string string) =>
    (Some (ErrExternal "cache: read-only"), st);
|}.

Definition offlineClient : http_Client Store :=
  {| client_Do := fun _ st => (inl (ErrExternal "dial tcp: network is unreachable"), st) |}.

Fixpoint digits (acc : Z) (s : string) : option Z :=
  match s with
  | EmptyString => Some acc
  | String c s' =>
      if isDigit c
      then digits (10 * acc + Z.of_nat (nat_of_ascii c - 48)) s'
      else None
  end.

(** A JSON document that is one integer literal. *)
Definition parseInt (s : string) : option Z :=
  match s with
  | EmptyString => None
  | String "-" (String c s') => Z.opp <$> digits 0 (String c s')
  | _ => digits 0 s
  end.

End Std.

(** The standard library the examples run on; [http.DefaultClient] has
    no network there. *)
#[export] Instance goStd : GoStd Std.Store := {|
  CanonicalMIMEHeaderKey := Std.canonicalMIMEHeaderKey;
  ParseMediaType := Std.mediaType;
  StatusText := Std.statusText;
  NewRequestWithContext := Std.newRequestWithContext;
  DefaultClient := Std.offlineClient;
|}.

(** Decoding into a Go [int]: the document must be an integer literal,
    read without a read error. *)
#[export] Instance decodeInt : JSONDecode Z := fun r =>
  match rd_err r, Std.parseInt (rd_data r) with
  | None, Some n => inr n
  | Some e, _ => inl e
  | None, None => inl (ErrExternal "json: cannot unmarshal")
  end.

(** A world with an empty store and nothing done yet. *)
Definition world0 : World Std.Store := {| ext := ∅; trace := [] |}.

(** A response with the given status, [Content-Type] and body bytes. *)
Definition response (code : Z) (contentType content : string) (id : nat)
  : http_Response :=
  {| resp_StatusCode := code;
     resp_Header := {[ "Content-Type" := [contentType] ]};
     resp_Body := {| body_id := id; body_reader := NewReader content |} |}.

(** A response whose body fails while it is read. *)
Definition brokenResponse (code : Z) (contentType : string) (id : nat)
  : http_Response :=
  {| resp_StatusCode := code;
     resp_Header := {[ "Content-Type" := [contentType] ]};
     resp_Body := {| body_id := id;
                     body_reader := {| rd_data := "par";
                                       rd_err := Some (ErrExternal "unexpected EOF") |} |} |}.


(** The request the default options send for [url]. *)
Definition plainGet (url : string) : http_Request :=
  {| req_ctx := Background; req_method := "GET"; req_url := url;
     req_body := None; req_header := ∅ |}.

(** The options of a call on a canned transport. *)
Definition onCanned (resp : http_Response)
    (o : list (DownloadOption Std.Store)) : list (DownloadOption Std.Store) :=
  WithClient (Some (Std.cannedClient resp)) :: o.

(* ===================================================================== *)
(** ** Properties *)
(* ===================================================================== *)

Section Properties.

Context {Ext : Type} {std : GoStd Ext}.

Implicit Types (w : World Ext) (opts : DownloadOptions Ext)
  (o : list (DownloadOption Ext)) (resp : http_Response) (url : string).

(** *** The two halves of [Download] *)

Lemma Download_Got url o w resp w1 :
  fetch url (applyOptions o) w = (Got resp, w1) ->
  Download url o w = respond (applyOptions o) resp w1.
Proof. intros Hf. unfold Download, bind. now rewrite Hf. Qed.

Lemma Download_Early url o w out w1 :
  fetch url (applyOptions o) w = (Early out, w1) ->
  Download url o w = (out, w1).
Proof. intros Hf. unfold Download, bind. now rewrite Hf. Qed.

Lemma badStatusCode_true code : ¬ (200 <= code < 400)%Z -> badStatusCode code = true.
Proof.
  intros Hc. unfold badStatusCode.
  destruct (Z.ltb_spec code 200); [reflexivity|].
  destruct (Z.leb_spec 400 code); [reflexivity|]. lia.
Qed.

Lemma badStatusCode_false code : (200 <= code < 400)%Z -> badStatusCode code = false.
Proof.
  intros Hc. unfold badStatusCode.
  destruct (Z.ltb_spec code 200); [lia|].
  destruct (Z.leb_spec 400 code); [lia|reflexivity].
Qed.

(** *** The steps of the classifier *)

Lemma checkIgnore_unset opts resp w :
  IgnoreStatusCode opts = false ->
  checkIgnore opts resp w =
    (Returned None (Some (ErrBadStatus (BadStatus (resp_StatusCode resp)))),
     logged w [EvClose (body_id (resp_Body resp))]).
Proof. intros Hi. unfold checkIgnore. now rewrite Hi. Qed.

Lemma checkIgnore_set opts resp w :
  IgnoreStatusCode opts = true ->
  checkIgnore opts resp w = checkContentType opts resp w.
Proof. intros Hi. unfold checkIgnore. now rewrite Hi. Qed.

Lemma respond_no_factory opts resp w :
  GenError opts = None ->
  badStatusCode (resp_StatusCode resp) = true ->
  respond opts resp w = checkIgnore opts resp w.
Proof. intros Hg Hb. unfold respond. now rewrite Hb, Hg. Qed.

Lemma respond_good_status opts resp w :
  badStatusCode (resp_StatusCode resp) = false ->
  respond opts resp w = checkContentType opts resp w.
Proof. intros Hb. unfold respond. now rewrite Hb. Qed.

Lemma respond_factory opts resp w gen :
  GenError opts = Some gen ->
  badStatusCode (resp_StatusCode resp) = true ->
  matchContentType resp "application/json" = true ->
  respond opts resp w =
    (Returned None (gen (body_reader (resp_Body resp)) (resp_StatusCode resp)),
     logged w [EvClose (body_id (resp_Body resp))]).
Proof. intros Hg Hb Hm. unfold respond. now rewrite Hb, Hg, Hm. Qed.

Lemma respond_factory_other_type opts resp w gen :
  GenError opts = Some gen ->
  badStatusCode (resp_StatusCode resp) = true ->
  matchContentType resp "application/json" = false ->
  respond opts resp w = checkIgnore opts resp w.
Proof. intros Hg Hb Hm. unfold respond. now rewrite Hb, Hg, Hm. Qed.

(** C1.  When the call has obtained a response whose status code lies
    outside [200,400), no error factory is configured and the
    ignore-status-code flag is unset, [Download] returns no body and the
    [BadStatusError] of that very code (after closing the response
    body); the message of that error is the code in decimal, a space,
    and the standard phrase of the code. *)
Theorem Download_bad_status url o w resp w1 :
  fetch url (applyOptions o) w = (Got resp, w1) ->
  GenError (applyOptions o) = None ->
  IgnoreStatusCode (applyOptions o) = false ->
  ¬ (200 <= resp_StatusCode resp < 400)%Z ->
  Download url o w =
    (Returned None (Some (ErrBadStatus (BadStatus (resp_StatusCode resp)))),
     logged w1 [EvClose (body_id (resp_Body resp))])
  /\ StatusCode (BadStatus (resp_StatusCode resp)) = resp_StatusCode resp
  /\ BadStatusError_Error (BadStatus (resp_StatusCode resp)) =
       itoa (resp_StatusCode resp) ++ " " ++ StatusText (resp_StatusCode resp).
Proof.
  intros Hf Hg Hi Hc. split; [|split; reflexivity].
  rewrite (Download_Got _ _ _ _ _ Hf).
  rewrite respond_no_factory by auto using badStatusCode_true.
  now apply checkIgnore_unset.
Qed.

(** *** Option assembly *)

Lemma applyOptions_snoc o (f : DownloadOption Ext) :
  applyOptions (o ++ [f])%list = f (applyOptions o).
Proof. unfold applyOptions. now rewrite fold_left_app. Qed.





(** The factory at work in [Download]: on a bad status with a JSON
    content type the call fails with what the factory returns, the body
    closed. *)
Lemma Download_error_factory (T : Type) `{JSONDecode T} url o w resp w1 :
  fetch url (applyOptions (o ++ [WithErrorType T])) w = (Got resp, w1) ->
  ¬ (200 <= resp_StatusCode resp < 400)%Z ->
  matchContentType resp "application/json" = true ->
  Download url (o ++ [WithErrorType T]) w =
    (Returned None
       (Some match json_Decode (body_reader (resp_Body resp)) with
             | inr result => ErrTyped T result
             | inl _ => ErrBadStatus (BadStatus (resp_StatusCode resp))
             end),
     logged w1 [EvClose (body_id (resp_Body resp))]).
Proof.
  intros Hf Hc Hm. rewrite (Download_Got _ _ _ _ _ Hf).
  rewrite (respond_factory _ _ _ (errorFactory T));
    [ | now rewrite applyOptions_snoc | now apply badStatusCode_true | assumption ].
  unfold errorFactory. now destruct (json_Decode _).
Qed.

(** *** Headers *)

Lemma Header_Values_Set (h : http_Header) key value :
  Header_Values (Header_Set h key value) key = [value].
Proof. unfold Header_Values, Header_Set. now rewrite lookup_insert_eq. Qed.

Lemma Header_Values_Add (h : http_Header) key value :
  Header_Values (Header_Add h key value) key
  = (Header_Values h key ++ [value])%list.
Proof.
  unfold Header_Add. unfold Header_Values at 1. now rewrite lookup_insert_eq.
Qed.

Lemma Header_Values_fold_Add values : forall (h : http_Header) key,
  Header_Values (fold_left (fun h value => Header_Add h key value) values h) key
  = (Header_Values h key ++ values)%list.
Proof.
  induction values as [|v values IH]; intros h key; cbn.
  - now rewrite app_nil_r.
  - rewrite IH, Header_Values_Add. now rewrite <- app_assoc.
Qed.

Lemma headerWith_values (h : option http_Header) key value0 values :
  Header_Values (headerWith h key value0 values) key = value0 :: values.
Proof.
  unfold headerWith. now rewrite Header_Values_fold_Add, Header_Values_Set.
Qed.

(** C5, as the code has it.  [WithHeader key value0 values] is the only
    header option; whatever was configured for [key] before, it leaves
    exactly [value0 :: values] there: the first value overwrites, the
    further values of the same call append.  So setting "a" then "c"
    leaves ["c"], one call with "a" and "b" leaves ["a";"b"], and a later
    call for the same key replaces the values of an earlier one. *)
Theorem WithHeader_values o key value0 values :
  configuredValues (applyOptions (o ++ [WithHeader key value0 values])) key
  = value0 :: values.
Proof.
  rewrite applyOptions_snoc. unfold configuredValues. cbn.
  apply headerWith_values.
Qed.

(** *** The content-type check and the write-through *)

Lemma len_nonempty (s : string) : s <> "" -> (0 <? len s)%Z = true.
Proof.
  intros Hs. destruct s as [|c s]; [congruence|].
  unfold len. cbn [String.length]. apply Z.ltb_lt. lia.
Qed.

Lemma checkContentType_ok opts resp w :
  AcceptContentType opts = ""
  \/ matchContentType resp (AcceptContentType opts) = true ->
  checkContentType opts resp w = writeThrough opts resp w.
Proof.
  intros [He|Hm]; unfold checkContentType.
  - now rewrite He.
  - rewrite Hm. now rewrite andb_false_r.
Qed.

Lemma checkContentType_mismatch opts resp w :
  AcceptContentType opts <> "" ->
  matchContentType resp (AcceptContentType opts) = false ->
  checkContentType opts resp w =
    (Returned None
       (Some (ErrNew ("bad content-type: "
                      ++ Header_Get (resp_Header resp) "Content-Type"))),
     logged w [EvClose (body_id (resp_Body resp))]).
Proof.
  intros Hne Hm. unfold checkContentType.
  now rewrite (len_nonempty _ Hne), Hm.
Qed.

Lemma writeThrough_no_cache opts resp w :
  Cache opts = None ->
  writeThrough opts resp w = (Returned (Some (RespBody (resp_Body resp))) None, w).
Proof. intros Hc. unfold writeThrough. now rewrite Hc. Qed.

Lemma writeThrough_stored opts resp w c :
  Cache opts = Some c ->
  rd_err (body_reader (resp_Body resp)) = None ->
  let content := rd_data (body_reader (resp_Body resp)) in
  writeThrough opts resp w =
    (Returned (Some (NopCloser (NewReader content))) None,
     {| ext := (cache_Set c (CacheKey opts) content (CacheTTL opts) (ext w)).2;
        trace := (trace w ++ [EvCacheSet (CacheKey opts) content (CacheTTL opts)])%list |}).
Proof.
  intros Hc Hr content. unfold writeThrough, ReadAll. rewrite Hc, Hr.
  unfold bind, Set_, call, ret. fold content.
  now destruct (cache_Set c (CacheKey opts) content (CacheTTL opts) (ext w)).
Qed.

Lemma writeThrough_read_error opts resp w c e :
  Cache opts = Some c ->
  rd_err (body_reader (resp_Body resp)) = Some e ->
  writeThrough opts resp w =
    (Returned None (Some e), logged w [EvClose (body_id (resp_Body resp))]).
Proof. intros Hc Hr. unfold writeThrough, ReadAll. now rewrite Hc, Hr. Qed.

(** With the flag set and no factory, the status step lets every
    status code through. *)
Lemma respond_ignore opts resp w :
  IgnoreStatusCode opts = true ->
  GenError opts = None ->
  respond opts resp w = checkContentType opts resp w.
Proof.
  intros Hi Hg. destruct (badStatusCode (resp_StatusCode resp)) eqn:Hb.
  - rewrite respond_no_factory by assumption. now apply checkIgnore_set.
  - now apply respond_good_status.
Qed.

(** C6, as the code has it.  With the ignore-status-code flag set, no
    error factory and no accept content type violated, whatever the
    status code of the response obtained: without a cache [Download]
    returns the response body itself and no error; with a cache it
    returns, provided the read of the body for the write-through does not
    fail, an in-memory stream over the bytes of the body and no error. *)
Theorem Download_ignore_status url o w resp w1 :
  fetch url (applyOptions o) w = (Got resp, w1) ->
  IgnoreStatusCode (applyOptions o) = true ->
  GenError (applyOptions o) = None ->
  (AcceptContentType (applyOptions o) = ""
   \/ matchContentType resp (AcceptContentType (applyOptions o)) = true) ->
  match Cache (applyOptions o) with
  | None =>
      Download url o w = (Returned (Some (RespBody (resp_Body resp))) None, w1)
  | Some c =>
      rd_err (body_reader (resp_Body resp)) = None ->
      let content := rd_data (body_reader (resp_Body resp)) in
      let key := CacheKey (applyOptions o) in
      let ttl := CacheTTL (applyOptions o) in
      Download url o w =
        (Returned (Some (NopCloser (NewReader content))) None,
         {| ext := (cache_Set c key content ttl (ext w1)).2;
            trace := (trace w1 ++ [EvCacheSet key content ttl])%list |})
  end.
Proof.
  intros Hf Hi Hg Ha. rewrite (Download_Got _ _ _ _ _ Hf).
  rewrite respond_ignore, checkContentType_ok by assumption.
  destruct (Cache (applyOptions o)) as [c|] eqn:Hc.
  - intros Hr. now apply writeThrough_stored.
  - now apply writeThrough_no_cache.
Qed.

Lemma respond_statusPasses opts resp w :
  statusPasses opts resp ->
  respond opts resp w = checkContentType opts resp w.
Proof.
  intros [Hb|[Hi Hg]]; [now apply respond_good_status|].
  destruct (badStatusCode (resp_StatusCode resp)) eqn:Hb;
    [|now apply respond_good_status].
  destruct Hg as [Hg|Hm].
  - now apply respond_ignore.
  - destruct (GenError opts) as [gen|] eqn:Hg.
    + rewrite (respond_factory_other_type _ _ _ gen) by assumption.
      now apply checkIgnore_set.
    + now apply respond_ignore.
Qed.

Lemma matchContentType_spec resp contentType :
  matchContentType resp contentType = true
  <-> contentType = ParseMediaType (Header_Get (resp_Header resp) "Content-Type").
Proof. unfold matchContentType. apply String.eqb_eq. Qed.


(** C8.  [DownloadJSON] is [Download] with the option requiring
    "application/json" appended after the caller's options, then the
    decoding of the body: a failure of [Download] is returned as it is
    with no value; a body is decoded (and closed), and the call returns
    the decode error with no value, or the decoded value with no error. *)
Theorem DownloadJSON_Download (T : Type) `{JSONDecode T} url o w r w1 :
  Download url (o ++ [WithAcceptContentType "application/json"]) w = (r, w1) ->
  match r with
  | Returned _ (Some err) =>
      DownloadJSON T url o w = (Returned None (Some err), w1)
  | Returned (Some body) None =>
      DownloadJSON T url o w =
        (match json_Decode (reader_of body) with
         | inl err => Returned None (Some err)
         | inr result => Returned (Some result) None
         end,
         (Close body w1).2)
  | Returned None None =>
      DownloadJSON T url o w = (Panic "nil pointer dereference", w1)
  | Panic msg => DownloadJSON T url o w = (Panic msg, w1)
  end.
Proof.
  intros Hd. unfold DownloadJSON, bind. rewrite Hd.
  destruct r as [[body|] [err|]|msg]; try reflexivity.
  unfold ret. destruct (Close body w1) as [[] w2]. cbn.
  now destruct (json_Decode (reader_of body)).
Qed.

(** *** The cache gate *)

Lemma fetch_hit url opts w c content x :
  Cache opts = Some c ->
  cache_Get c (CacheKey opts) (ext w) = ((content, None), x) ->
  fetch url opts w =
    (Early (Returned (Some (NopCloser (NewReader content))) None),
     {| ext := x; trace := (trace w ++ [EvCacheGet (CacheKey opts)])%list |}).
Proof.
  intros Hc Hg. unfold fetch, bind, Get, call, ret. now rewrite Hc, Hg.
Qed.

(** A call that returns a body did so through [writeThrough]. *)
Lemma respond_body_inv opts resp w rc w' :
  respond opts resp w = (Returned (Some rc) None, w') ->
  writeThrough opts resp w = (Returned (Some rc) None, w').
Proof.
  unfold respond, checkIgnore, checkContentType, bind, ret.
  destruct (badStatusCode _), (GenError opts) as [gen|],
    (matchContentType resp "application/json"), (IgnoreStatusCode opts),
    ((0 <? len (AcceptContentType opts))%Z
     && negb (matchContentType resp (AcceptContentType opts)));
    cbn; intros Hr; first [exact Hr | discriminate Hr].
Qed.

(** What every exit of [respond] leaves of the response body: handed to
    the caller unclosed (no cache); read, stored, and replaced by an
    in-memory stream (cache); or closed, once, on failure. *)
Lemma respond_exits opts resp w :
  let b := resp_Body resp in
  let content := rd_data (body_reader b) in
  match respond opts resp w with
  | (Returned (Some (RespBody b')) None, w') =>
      Cache opts = None /\ b' = b /\ w' = w
  | (Returned (Some (NopCloser r)) None, w') =>
      is_Some (Cache opts) /\ r = NewReader content
      /\ ext w' = match Cache opts with
                  | Some c => (cache_Set c (CacheKey opts) content
                                 (CacheTTL opts) (ext w)).2
                  | None => ext w
                  end
      /\ trace w' =
           (trace w ++ [EvCacheSet (CacheKey opts) content (CacheTTL opts)])%list
  | (Returned None _, w') => w' = logged w [EvClose (body_id b)]
  | _ => False
  end.
Proof.
  intros b content.
  unfold respond, checkIgnore, checkContentType, writeThrough, ReadAll,
    bind, ret, Set_, call.
  fold b. fold content.
  destruct (badStatusCode _), (GenError opts) as [gen|],
    (matchContentType resp "application/json"), (IgnoreStatusCode opts),
    ((0 <? len (AcceptContentType opts))%Z
     && negb (matchContentType resp (AcceptContentType opts)));
    cbn; try reflexivity;
    destruct (Cache opts) as [c|]; cbn; auto;
    destruct (rd_err (body_reader b)); cbn; try reflexivity;
    destruct (cache_Set c (CacheKey opts) content (CacheTTL opts) (ext w));
    cbn; (split; [eexists; reflexivity | auto]).
Qed.

(** A first call, with a cache and without the key in it, that returns a
    body: one lookup, one network exchange, one write of the body's bytes
    under the configured key and TTL, and the bytes handed back as an
    in-memory stream. *)
Lemma Download_miss_success url o w c rc w' :
  let opts := applyOptions o in
  Cache opts = Some c ->
  (cache_Get c (CacheKey opts) (ext w)).1.2 <> None ->
  Download url o w = (Returned (Some rc) None, w') ->
  exists req client resp x1 x2,
    let content := rd_data (body_reader (resp_Body resp)) in
    buildRequest url opts = inr req
    /\ Client opts = Some client
    /\ (cache_Get c (CacheKey opts) (ext w)).2 = x1
    /\ client_Do client req x1 = (inr resp, x2)
    /\ rc = NopCloser (NewReader content)
    /\ ext w' = (cache_Set c (CacheKey opts) content (CacheTTL opts) x2).2
    /\ trace w' =
         (trace w ++ [EvCacheGet (CacheKey opts); EvDo req;
                      EvCacheSet (CacheKey opts) content (CacheTTL opts)])%list.
Proof.
  intros opts Hc Hmiss Hd.
  unfold Download, bind in Hd. fold opts in Hd.
  unfold fetch, bind, Get, call, ret in Hd. rewrite Hc in Hd.
  destruct (cache_Get c (CacheKey opts) (ext w)) as [[content0 err0] x1] eqn:Hg.
  cbn in Hmiss, Hd. destruct err0 as [e0|]; [|congruence].
  destruct (buildRequest url opts) as [e|req] eqn:Hb; [discriminate Hd|].
  destruct (Client opts) as [client|] eqn:Hcl; [|discriminate Hd].
  unfold Do, call in Hd. cbn [ext trace] in Hd.
  destruct (client_Do client req x1) as [[e|resp] x2] eqn:Hdo;
    [discriminate Hd|].
  exists req, client, resp, x1, x2. cbn.
  pose proof (respond_exits opts resp
                {| ext := x2;
                   trace := ((trace w ++ [EvCacheGet (CacheKey opts)])
                             ++ [EvDo req])%list |}) as Hx.
  cbn zeta in Hx. rewrite Hd, Hc in Hx.
  destruct rc as [b'|r].
  - destruct Hx as [Hx _]. discriminate Hx.
  - destruct Hx as (_ & -> & Hext & Htr). cbn in Hext, Htr.
    repeat split; try reflexivity; try assumption.
    rewrite Htr. now rewrite <- !app_assoc.
Qed.



(** C4.  Cache round trip.  A first call with a cache configured, the key
    not in it, that returns a body has made one network exchange and has
    written the bytes of that body to the cache under the configured key
    and TTL.  A later call with the same cache and key, made while the
    cache still answers the key with those bytes, returns the same
    content after the lookup alone: no network exchange, and nothing of
    its other options or of any response is consulted. *)
Theorem cache_round_trip url o w c rc w' :
  let opts := applyOptions o in
  let key := CacheKey opts in
  Cache opts = Some c ->
  (cache_Get c key (ext w)).1.2 <> None ->
  Download url o w = (Returned (Some rc) None, w') ->
  (exists req resp,
     let content := rd_data (body_reader (resp_Body resp)) in
     rc = NopCloser (NewReader content)
     /\ trace w' =
          (trace w ++ [EvCacheGet key; EvDo req;
                       EvCacheSet key content (CacheTTL opts)])%list)
  /\ (forall url2 o2 w2 x,
        Cache (applyOptions o2) = Some c ->
        CacheKey (applyOptions o2) = key ->
        cache_Get c key (ext w2) = ((rd_data (reader_of rc), None), x) ->
        Download url2 o2 w2 =
          (Returned (Some rc) None,
           {| ext := x; trace := (trace w2 ++ [EvCacheGet key])%list |})).
Proof.
  intros opts key Hc Hmiss Hd.
  destruct (Download_miss_success url o w c rc w' Hc Hmiss Hd)
    as (req & client & resp & x1 & x2 & _ & _ & _ & _ & Hrc & _ & Htr).
  split.
  - exists req, resp. split; assumption.
  - intros url2 o2 w2 x Hc2 Hk2 Hg2.
    apply Download_Early.
    rewrite (fetch_hit url2 (applyOptions o2) w2 c (rd_data (reader_of rc)) x);
      [ | assumption | now rewrite Hk2 ].
    rewrite Hk2, Hrc. reflexivity.
Qed.


(** *** Beyond the gate: the exits of the first half *)

Lemma fetch_gateMisses url opts w w0 :
  gateMisses opts w w0 ->
  fetch url opts w =
    match buildRequest url opts with
    | inl err => (Early (Returned None (Some err)), w0)
    | inr req =>
        match Client opts with
        | None => (Early (Panic "nil pointer dereference"), w0)
        | Some client =>
            (match (client_Do client req (ext w0)).1 with
             | inl err => Early (Returned None (Some err))
             | inr resp => Got resp
             end,
             {| ext := (client_Do client req (ext w0)).2;
                trace := (trace w0 ++ [EvDo req])%list |})
        end
    end.
Proof.
  unfold gateMisses, fetch, bind, ret, Get, Do, call.
  destruct (Cache opts) as [c|].
  - destruct (cache_Get c (CacheKey opts) (ext w)) as [[content [e|]] x1];
      cbn; intros [Hm ->]; [|congruence].
    destruct (buildRequest url opts) as [err|req]; [reflexivity|].
    destruct (Client opts) as [client|]; [|reflexivity]. cbn.
    now destruct (client_Do client req x1) as [[err|resp] x2].
  - intros ->.
    destruct (buildRequest url opts) as [err|req]; [reflexivity|].
    destruct (Client opts) as [client|]; [|reflexivity].
    now destruct (client_Do client req (ext w)) as [[err|resp] x2].
Qed.

(** X1.  A response with a status code in [200,400) that violates no
    accept content type is returned as it is when no cache is
    configured: the body of the response, not closed, no error; neither
    the error factory nor the ignore flag has a say. *)
Theorem Download_good_status url o w resp w1 :
  fetch url (applyOptions o) w = (Got resp, w1) ->
  (200 <= resp_StatusCode resp < 400)%Z ->
  (AcceptContentType (applyOptions o) = ""
   \/ matchContentType resp (AcceptContentType (applyOptions o)) = true) ->
  Cache (applyOptions o) = None ->
  Download url o w = (Returned (Some (RespBody (resp_Body resp))) None, w1).
Proof.
  intros Hf Hc Ha Hn. rewrite (Download_Got _ _ _ _ _ Hf).
  rewrite respond_good_status by now apply badStatusCode_false.
  rewrite checkContentType_ok by assumption.
  now apply writeThrough_no_cache.
Qed.

(** X2.  Whenever a call that obtained a response returns no body, the
    one thing it did after the exchange is to close the response body,
    once: nothing was written to the cache, and the state of the
    collaborators is the one the exchange left. *)
Theorem Download_failure_closes_body url o w resp w1 err w' :
  fetch url (applyOptions o) w = (Got resp, w1) ->
  Download url o w = (Returned None err, w') ->
  w' = logged w1 [EvClose (body_id (resp_Body resp))].
Proof.
  intros Hf Hd. rewrite (Download_Got _ _ _ _ _ Hf) in Hd.
  pose proof (respond_exits (applyOptions o) resp w1) as Hx.
  cbn zeta in Hx. now rewrite Hd in Hx.
Qed.

(** X3.  A failure of the transport is returned as the transport
    reported it, with no body: the exchange is the last thing the call
    does, nothing is retried, closed or cached. *)
Theorem Download_transport_error url o w w0 req client e x :
  gateMisses (applyOptions o) w w0 ->
  buildRequest url (applyOptions o) = inr req ->
  Client (applyOptions o) = Some client ->
  client_Do client req (ext w0) = (inl e, x) ->
  Download url o w =
    (Returned None (Some e),
     {| ext := x; trace := (trace w0 ++ [EvDo req])%list |}).
Proof.
  intros Hg Hb Hc Hdo. apply Download_Early.
  rewrite (fetch_gateMisses _ _ _ _ Hg), Hb, Hc, Hdo. reflexivity.
Qed.

(** X4.  When the request cannot be built, the constructor's error is
    returned with no body before anything is sent: no network exchange
    takes place, whatever the transport is, a nil one included. *)
Theorem Download_request_error url o w w0 err :
  gateMisses (applyOptions o) w w0 ->
  buildRequest url (applyOptions o) = inl err ->
  Download url o w = (Returned None (Some err), w0).
Proof.
  intros Hg Hb. apply Download_Early.
  now rewrite (fetch_gateMisses _ _ _ _ Hg), Hb.
Qed.

(** *** Headers, from the options to the request *)

Lemma fold_Header_Add_insert values : forall (h : http_Header) key l,
  h !! CanonicalMIMEHeaderKey key = Some l ->
  fold_left (fun h value => Header_Add h key value) values h
  = <[CanonicalMIMEHeaderKey key := (l ++ values)%list]> h.
Proof.
  induction values as [|v values IH]; intros h key l Hl; cbn.
  - rewrite app_nil_r. symmetry. now apply insert_id.
  - rewrite (IH _ key (l ++ [v])%list).
    + unfold Header_Add. rewrite insert_insert_eq. now rewrite <- app_assoc.
    + unfold Header_Add, Header_Values. rewrite Hl. cbn.
      now rewrite lookup_insert_eq.
Qed.

(** What [WithHeader] leaves is one assignment under the canonical key. *)
Lemma headerWith_insert (h : option http_Header) key value0 values :
  headerWith h key value0 values
  = <[CanonicalMIMEHeaderKey key := value0 :: values]> (default ∅ h).
Proof.
  unfold headerWith.
  rewrite (fold_Header_Add_insert values _ key [value0]).
  - unfold Header_Set. now rewrite insert_insert_eq.
  - unfold Header_Set. now rewrite lookup_insert_eq.
Qed.

(** X5.  What [WithHeader key value0 values] does to the values read
    under any key: a key with the same canonical form as [key] now reads
    [value0 :: values]; every other key reads what it read before. *)
Theorem WithHeader_lookup key value0 values (do : DownloadOptions Ext) key' :
  configuredValues (WithHeader key value0 values do) key'
  = if decide (CanonicalMIMEHeaderKey key = CanonicalMIMEHeaderKey key')
    then value0 :: values
    else configuredValues do key'.
Proof.
  unfold configuredValues. cbn. rewrite headerWith_insert.
  unfold Header_Values. rewrite lookup_insert.
  now destruct (decide (CanonicalMIMEHeaderKey key = CanonicalMIMEHeaderKey key')).
Qed.

(** X6.  How two [WithHeader] options compose: on keys of the same
    canonical form the later one makes the earlier one void; on keys of
    different canonical forms the order of the two does not matter. *)
Theorem WithHeader_compose k1 v1 vs1 k2 v2 vs2 (do : DownloadOptions Ext) :
  (CanonicalMIMEHeaderKey k1 = CanonicalMIMEHeaderKey k2 ->
   WithHeader k2 v2 vs2 (WithHeader k1 v1 vs1 do) = WithHeader k2 v2 vs2 do)
  /\ (CanonicalMIMEHeaderKey k1 <> CanonicalMIMEHeaderKey k2 ->
      WithHeader k2 v2 vs2 (WithHeader k1 v1 vs1 do)
      = WithHeader k1 v1 vs1 (WithHeader k2 v2 vs2 do)).
Proof.
  split; intros Hk; unfold WithHeader; cbn; f_equal; f_equal;
    rewrite !headerWith_insert; cbn.
  - rewrite Hk. apply insert_insert_eq.
  - apply insert_insert_ne. congruence.
Qed.

(** X7.  The request that is sent: method, URL, body and context are
    the constructor's; with a body content type configured the
    [Content-Type] header is exactly that type, whatever was configured
    for it as a header; every other configured header is on the request
    with the values configured. *)
Theorem buildRequest_headers url opts req0 :
  NewRequestWithContext (Ctx opts) (Method opts) url (Body opts) = inr req0 ->
  exists req,
    buildRequest url opts = inr req
    /\ (req_ctx req, req_method req, req_url req, req_body req)
       = (req_ctx req0, req_method req0, req_url req0, req_body req0)
    /\ (BodyContentType opts <> "" ->
        Header_Values (req_header req) "Content-Type" = [BodyContentType opts])
    /\ (forall k vs,
          default ∅ (Header opts) !! k = Some vs ->
          BodyContentType opts = ""
          \/ k <> CanonicalMIMEHeaderKey "Content-Type" ->
          req_header req !! k = Some vs).
Proof.
  intros Hn. unfold buildRequest. rewrite Hn. eexists. split; [reflexivity|].
  split; [reflexivity|]. cbn. split.
  - intros Hne. rewrite (len_nonempty _ Hne). apply Header_Values_Set.
  - intros k vs Hk [He|Hk'].
    + rewrite He. cbn. now apply lookup_union_Some_l.
    + destruct (0 <? len (BodyContentType opts))%Z.
      * unfold Header_Set. rewrite lookup_insert_ne by congruence.
        now apply lookup_union_Some_l.
      * now apply lookup_union_Some_l.
Qed.

(** *** The shape of a call *)

(** What a call does once the gate has let it through: nothing, or one
    exchange followed by at most one close or one cache write. *)
Lemma Download_after_gate url o w w0 :
  gateMisses (applyOptions o) w w0 ->
  exists net tail,
    trace (Download url o w).2 = (trace w0 ++ net ++ tail)%list
    /\ ((net = [] /\ tail = [])
        \/ exists req,
             buildRequest url (applyOptions o) = inr req
             /\ net = [EvDo req]
             /\ (tail = []
                 \/ (exists id, tail = [EvClose id])
                 \/ exists content,
                      tail = [EvCacheSet (CacheKey (applyOptions o)) content
                                (CacheTTL (applyOptions o))])).
Proof.
  intros Hg. unfold Download, bind. rewrite (fetch_gateMisses _ _ _ _ Hg).
  destruct (buildRequest url (applyOptions o)) as [err|req] eqn:Hb;
    [exists [], []; cbn; rewrite app_nil_r; auto|].
  destruct (Client (applyOptions o)) as [client|];
    [|exists [], []; cbn; rewrite app_nil_r; auto].
  destruct (client_Do client req (ext w0)) as [[e|resp] x2]; cbn.
  { exists [EvDo req], []. split; [reflexivity|]. right. exists req. auto. }
  pose proof (respond_exits (applyOptions o) resp
                {| ext := x2; trace := (trace w0 ++ [EvDo req])%list |}) as Hx.
  cbn zeta in Hx.
  destruct (respond _ resp _) as [[[[b'|r]|] [err|]|msg] w2];
    try contradiction.
  - destruct Hx as (_ & _ & ->). exists [EvDo req], []. cbn.
    split; [reflexivity|]. right. exists req. auto.
  - destruct Hx as (_ & _ & _ & Htr). cbn in Htr.
    exists [EvDo req]. eexists. cbn. rewrite Htr, <- app_assoc.
    split; [reflexivity|]. right. exists req. eauto 6.
  - subst w2. exists [EvDo req], [EvClose (body_id (resp_Body resp))]. cbn.
    rewrite <- app_assoc. split; [reflexivity|]. right. exists req. eauto 6.
  - subst w2. exists [EvDo req], [EvClose (body_id (resp_Body resp))]. cbn.
    rewrite <- app_assoc. split; [reflexivity|]. right. exists req. eauto 6.
Qed.

Lemma gate_cases opts w :
  (exists w0, gateMisses opts w w0
              /\ (trace w0 = trace w
                  \/ trace w0 = (trace w ++ [EvCacheGet (CacheKey opts)])%list))
  \/ (exists c content x,
        Cache opts = Some c
        /\ cache_Get c (CacheKey opts) (ext w) = ((content, None), x)).
Proof.
  unfold gateMisses. destruct (Cache opts) as [c|]; [|left; eauto].
  destruct (cache_Get c (CacheKey opts) (ext w)) as [[content [e|]] x] eqn:Hg.
  - left. eexists. split; [split; [|reflexivity]|]; cbn; auto.
  - right. eauto.
Qed.

Lemma Download_trace_shape url o w :
  exists gate net tail,
    trace (Download url o w).2 = (trace w ++ gate ++ net ++ tail)%list
    /\ (gate = [] \/ gate = [EvCacheGet (CacheKey (applyOptions o))])
    /\ ((net = [] /\ tail = [])
        \/ exists req,
             buildRequest url (applyOptions o) = inr req
             /\ net = [EvDo req]
             /\ (tail = []
                 \/ (exists id, tail = [EvClose id])
                 \/ exists content,
                      tail = [EvCacheSet (CacheKey (applyOptions o)) content
                                (CacheTTL (applyOptions o))])).
Proof.
  destruct (gate_cases (applyOptions o) w)
    as [(w0 & Hg & Hw0)|(c & content & x & Hc & Hget)].
  - destruct (Download_after_gate url o w w0 Hg) as (net & tail & Htr & Hs).
    destruct Hw0 as [Hw0|Hw0]; rewrite Hw0 in Htr.
    + exists [], net, tail. cbn. auto.
    + exists [EvCacheGet (CacheKey (applyOptions o))], net, tail.
      rewrite <- app_assoc in Htr. auto.
  - rewrite (Download_Early _ _ _ _ _ (fetch_hit url _ w c content x Hc Hget)).
    exists [EvCacheGet (CacheKey (applyOptions o))], [], []. cbn. auto.
Qed.

(** X8.  What one call does at most: one cache lookup, one network
    exchange, one close of the response body, one cache write; a close
    or a write only after an exchange, and never both. *)
Theorem Download_trace_bounds url o w :
  exists evs,
    trace (Download url o w).2 = (trace w ++ evs)%list
    /\ (countEvents isCacheGetEvent evs <= 1)%nat
    /\ (countEvents isDoEvent evs <= 1)%nat
    /\ (countEvents isCloseEvent evs + countEvents isCacheSetEvent evs
        <= countEvents isDoEvent evs)%nat.
Proof.
  destruct (Download_trace_shape url o w)
    as (gate & net & tail & Htr & Hgate & Hrest).
  exists (gate ++ net ++ tail)%list. split; [exact Htr|].
  destruct Hgate as [->| ->];
    destruct Hrest as [[-> ->]|(req & _ & -> & [->|[[id ->]|[content ->]]])];
    cbn; lia.
Qed.

(** X9.  The request of an exchange is the one built from the options:
    whatever request a call hands to the transport is the result of
    [buildRequest] on the URL and the assembled options. *)
Theorem Download_sends_built_request url o w evs req :
  trace (Download url o w).2 = (trace w ++ evs)%list ->
  In (EvDo req) evs ->
  buildRequest url (applyOptions o) = inr req.
Proof.
  intros Htr Hin.
  destruct (Download_trace_shape url o w)
    as (gate & net & tail & Htr' & Hgate & Hrest).
  rewrite Htr in Htr'. apply app_inv_head in Htr'. subst evs.
  destruct Hgate as [->| ->];
    destruct Hrest as [[-> ->]|(req' & Hb & -> & [->|[[id ->]|[content ->]]])];
    cbn in Hin; intuition (try discriminate; congruence).
Qed.

(** *** The error factory and the flag *)

(** X10.  The ignore-status-code flag does not silence the error
    factory: on a bad status with a JSON content type and a factory
    configured, the call fails with what the factory makes of the body,
    the body closed, whether the flag is set or not and whatever accept
    type or cache is configured. *)
Theorem Download_factory_overrides_flag url o w resp w1 gen :
  fetch url (applyOptions o) w = (Got resp, w1) ->
  ¬ (200 <= resp_StatusCode resp < 400)%Z ->
  GenError (applyOptions o) = Some gen ->
  matchContentType resp "application/json" = true ->
  Download url o w =
    (Returned None (gen (body_reader (resp_Body resp)) (resp_StatusCode resp)),
     logged w1 [EvClose (body_id (resp_Body resp))]).
Proof.
  intros Hf Hc Hg Hm. rewrite (Download_Got _ _ _ _ _ Hf).
  now apply respond_factory; [ | apply badStatusCode_true | ].
Qed.

(** X11.  A factory is consulted for JSON answers only: on a bad status
    whose content type is not "application/json", with the flag unset,
    the call fails with the [BadStatusError] of the code even though a
    factory is configured. *)
Theorem Download_factory_skips_non_json url o w resp w1 gen :
  fetch url (applyOptions o) w = (Got resp, w1) ->
  ¬ (200 <= resp_StatusCode resp < 400)%Z ->
  GenError (applyOptions o) = Some gen ->
  matchContentType resp "application/json" = false ->
  IgnoreStatusCode (applyOptions o) = false ->
  Download url o w =
    (Returned None (Some (ErrBadStatus (BadStatus (resp_StatusCode resp)))),
     logged w1 [EvClose (body_id (resp_Body resp))]).
Proof.
  intros Hf Hc Hg Hm Hi. rewrite (Download_Got _ _ _ _ _ Hf).
  rewrite (respond_factory_other_type _ _ _ gen)
    by auto using badStatusCode_true.
  now apply checkIgnore_unset.
Qed.

(** X12.  The cache write is best effort: once a response is accepted
    and its body read, the call returns the bytes as an in-memory stream
    and no error whatever [Cache.Set] returns, an error included. *)
Theorem Download_cache_write_best_effort url o w resp w1 c r x :
  let opts := applyOptions o in
  let content := rd_data (body_reader (resp_Body resp)) in
  fetch url opts w = (Got resp, w1) ->
  statusPasses opts resp ->
  (AcceptContentType opts = ""
   \/ matchContentType resp (AcceptContentType opts) = true) ->
  Cache opts = Some c ->
  rd_err (body_reader (resp_Body resp)) = None ->
  cache_Set c (CacheKey opts) content (CacheTTL opts) (ext w1) = (r, x) ->
  Download url o w =
    (Returned (Some (NopCloser (NewReader content))) None,
     {| ext := x;
        trace := (trace w1 ++ [EvCacheSet (CacheKey opts) content
                                 (CacheTTL opts)])%list |}).
Proof.
  intros opts content Hf Hs Ha Hc Hr Hset.
  rewrite (Download_Got _ _ _ _ _ Hf).
  rewrite respond_statusPasses, checkContentType_ok by assumption.
  rewrite (writeThrough_stored _ _ _ c) by assumption.
  cbn zeta. fold opts content. now rewrite Hset.
Qed.

(** *** What the exported options rule out *)







(** *** [DownloadBytes] and [DownloadJSON] *)

(** X15.  [DownloadBytes] gives the bytes of an accepted response, or
    the error that ended their reading, and the answer is the same with
    and without a cache configured. *)
Theorem DownloadBytes_content url o w resp w1 :
  let opts := applyOptions o in
  fetch url opts w = (Got resp, w1) ->
  statusPasses opts resp ->
  (AcceptContentType opts = ""
   \/ matchContentType resp (AcceptContentType opts) = true) ->
  (DownloadBytes url o w).1 =
    match rd_err (body_reader (resp_Body resp)) with
    | None => Returned (Some (rd_data (body_reader (resp_Body resp)))) None
    | Some e => Returned None (Some e)
    end.
Proof.
  intros opts Hf Hs Ha. unfold DownloadBytes, bind.
  rewrite (Download_Got _ _ _ _ _ Hf).
  rewrite respond_statusPasses, checkContentType_ok by assumption.
  unfold writeThrough, ReadAll, bind, ret, Set_, call. fold opts.
  destruct (Cache opts) as [c|];
    destruct (rd_err (body_reader (resp_Body resp))) as [e|] eqn:Hr;
    cbn; try rewrite Hr; try reflexivity.
  now destruct (cache_Set c _ _ _ _).
Qed.

(** X16.  Without a cache, [DownloadBytes] leaves no response body
    open: whatever it returns once a response is obtained, that body has
    been closed, once, and nothing else was done. *)
Theorem DownloadBytes_closes_body url o w resp w1 :
  fetch url (applyOptions o) w = (Got resp, w1) ->
  Cache (applyOptions o) = None ->
  (DownloadBytes url o w).2 = logged w1 [EvClose (body_id (resp_Body resp))].
Proof.
  intros Hf Hn. unfold DownloadBytes, bind.
  rewrite (Download_Got _ _ _ _ _ Hf).
  pose proof (respond_exits (applyOptions o) resp w1) as Hx. cbn zeta in Hx.
  destruct (respond _ resp w1) as [[[[b'|r]|] [err|]|msg] w2];
    try contradiction.
  - destruct Hx as (_ & -> & ->). unfold ReadAll. cbn.
    now destruct (rd_err (body_reader (resp_Body resp))).
  - destruct Hx as ([c Hc] & _). congruence.
  - now subst w2.
  - now subst w2.
Qed.

(** X17.  The same for [DownloadJSON]: without a cache, the body of the
    response it obtained is closed, once, whether the call ends with a
    value, a decode error or the error of [Download]. *)
Theorem DownloadJSON_closes_body (T : Type) `{JSONDecode T} url o w resp w1 :
  let o' := (o ++ [WithAcceptContentType "application/json"])%list in
  fetch url (applyOptions o') w = (Got resp, w1) ->
  Cache (applyOptions o') = None ->
  (DownloadJSON T url o w).2 = logged w1 [EvClose (body_id (resp_Body resp))].
Proof.
  intros o' Hf Hn. unfold DownloadJSON, bind. fold o'.
  rewrite (Download_Got _ _ _ _ _ Hf).
  pose proof (respond_exits (applyOptions o') resp w1) as Hx. cbn zeta in Hx.
  destruct (respond _ resp w1) as [[[[b'|r]|] [err|]|msg] w2];
    try contradiction.
  - destruct Hx as (_ & -> & ->). cbn.
    now destruct (json_Decode (body_reader (resp_Body resp))).
  - destruct Hx as ([c Hc] & _). congruence.
  - now subst w2.
  - now subst w2.
Qed.

(** X18.  [DownloadJSON] insists on "application/json" whatever accept
    type the caller configured: an answer that passes the status step
    with another media type is refused, its body closed, with the error
    that carries the header value received. *)
Theorem DownloadJSON_requires_json (T : Type) `{JSONDecode T}
    url o w resp w1 :
  let o' := (o ++ [WithAcceptContentType "application/json"])%list in
  let header := Header_Get (resp_Header resp) "Content-Type" in
  fetch url (applyOptions o') w = (Got resp, w1) ->
  statusPasses (applyOptions o') resp ->
  ParseMediaType header <> "application/json" ->
  DownloadJSON T url o w =
    (Returned None (Some (ErrNew ("bad content-type: " ++ header))),
     logged w1 [EvClose (body_id (resp_Body resp))]).
Proof.
  intros o' header Hf Hs Hp. unfold DownloadJSON, bind. fold o'.
  rewrite (Download_Got _ _ _ _ _ Hf).
  rewrite respond_statusPasses by assumption.
  assert (Ha : AcceptContentType (applyOptions o') = "application/json")
    by (unfold o'; now rewrite applyOptions_snoc).
  rewrite checkContentType_mismatch; [reflexivity | | ]; rewrite Ha.
  - discriminate.
  - apply not_true_is_false. intros Hm.
    apply matchContentType_spec in Hm. apply Hp. symmetry. exact Hm.
Qed.

(** X19.  On a cache hit the two entry points work on the cached
    content alone: [DownloadBytes] returns it, [DownloadJSON] decodes
    it, with no network exchange and, for [DownloadJSON], without any
    content-type requirement being checked. *)
Theorem entry_points_cache_hit (T : Type) `{JSONDecode T}
    url o w c content x :
  let key := CacheKey (applyOptions o) in
  Cache (applyOptions o) = Some c ->
  cache_Get c key (ext w) = ((content, None), x) ->
  DownloadBytes url o w =
    (Returned (Some content) None,
     {| ext := x; trace := (trace w ++ [EvCacheGet key])%list |})
  /\ DownloadJSON T url o w =
       (match json_Decode (NewReader content) with
        | inl err => Returned None (Some err)
        | inr result => Returned (Some result) None
        end,
        {| ext := x; trace := (trace w ++ [EvCacheGet key])%list |}).
Proof.
  intros key Hc Hg. split.
  - unfold DownloadBytes, bind.
    now rewrite (Download_Early _ _ _ _ _ (fetch_hit url _ w c content x Hc Hg)).
  - unfold DownloadJSON, bind.
    assert (Hc' : Cache (applyOptions
                           (o ++ [WithAcceptContentType "application/json"]))
                  = Some c) by now rewrite applyOptions_snoc.
    assert (Hg' : cache_Get c
                    (CacheKey (applyOptions
                       (o ++ [WithAcceptContentType "application/json"])))
                    (ext w) = ((content, None), x))
      by now rewrite applyOptions_snoc.
    rewrite (Download_Early _ _ _ _ _ (fetch_hit url _ w c content x Hc' Hg')).
    rewrite applyOptions_snoc. cbn. fold key.
    now destruct (json_Decode (NewReader content)).
Qed.

(** X20.  [WithFakeUserAgent] reaches the wire: when it is the last
    option, the request built carries exactly the generated string as
    its [User-Agent], whatever [User-Agent] was configured before it
    (provided no body content type is configured, or the canonical forms
    of "User-Agent" and "Content-Type" differ, as they do). *)
Theorem WithFakeUserAgent_request url o ua req0 :
  let opts := applyOptions (o ++ [WithFakeUserAgent ua]) in
  NewRequestWithContext (Ctx opts) (Method opts) url (Body opts) = inr req0 ->
  (BodyContentType opts = ""
   \/ CanonicalMIMEHeaderKey "User-Agent" <> CanonicalMIMEHeaderKey "Content-Type") ->
  exists req,
    buildRequest url opts = inr req
    /\ Header_Values (req_header req) "User-Agent" = [ua].
Proof.
  intros opts Hn Hk. unfold buildRequest. rewrite Hn. eexists.
  split; [reflexivity|]. cbn [req_header withHeader].
  assert (Hh : Header opts
               = Some (<[CanonicalMIMEHeaderKey "User-Agent" := [ua]]>
                         (default ∅ (Header (applyOptions o))))).
  { unfold opts. rewrite applyOptions_snoc.
    unfold WithFakeUserAgent, WithHeader. cbn [Header].
    now rewrite headerWith_insert. }
  rewrite Hh. cbn [default].
  assert (Hu : (<[CanonicalMIMEHeaderKey "User-Agent" := [ua]]>
                  (default ∅ (Header (applyOptions o))) ∪ req_header req0)
               !! CanonicalMIMEHeaderKey "User-Agent" = Some [ua])
    by (apply lookup_union_Some_l, lookup_insert_eq).
  unfold Header_Values.
  destruct (0 <? len (BodyContentType opts))%Z eqn:Hl.
  - destruct Hk as [He|Hne]; [rewrite He in Hl; discriminate Hl|].
    unfold Header_Set. rewrite lookup_insert_ne by congruence.
    exact (f_equal (default []) Hu).
  - exact (f_equal (default []) Hu).
Qed.

(** X21.  A hand-written error factory that returns nil leaves the
    caller with neither body nor error: on a bad status with a JSON
    content type [Download] then returns (nil, nil), the body closed,
    and [DownloadBytes], which goes on to use the nil body, panics. *)
Theorem Download_nil_factory_error url o w resp w1 gen :
  fetch url (applyOptions o) w = (Got resp, w1) ->
  ¬ (200 <= resp_StatusCode resp < 400)%Z ->
  GenError (applyOptions o) = Some gen ->
  matchContentType resp "application/json" = true ->
  gen (body_reader (resp_Body resp)) (resp_StatusCode resp) = None ->
  Download url o w =
    (Returned None None, logged w1 [EvClose (body_id (resp_Body resp))])
  /\ (DownloadBytes url o w).1 = Panic "nil pointer dereference".
Proof.
  intros Hf Hc Hg Hm Hnil.
  assert (Hd : Download url o w =
               (Returned None None,
                logged w1 [EvClose (body_id (resp_Body resp))])).
  { rewrite (Download_Got _ _ _ _ _ Hf).
    rewrite (respond_factory _ _ _ gen) by auto using badStatusCode_true.
    now rewrite Hnil. }
  split; [exact Hd|]. unfold DownloadBytes, bind. now rewrite Hd.
Qed.

End Properties.

(* ===================================================================== *)
(** ** The properties at work *)
(* ===================================================================== *)

Example statusText_404 :
  BadStatusError_Error (BadStatus 404) = "404 Not Found".
Proof. reflexivity. Qed.

Example canonical_keys :
  CanonicalMIMEHeaderKey "content-type" = "Content-Type"
  /\ CanonicalMIMEHeaderKey "X" = "X".
Proof. split; reflexivity. Qed.

(** A 500 answer with the default options. *)
Lemma Download_bad_status_witness :
  let resp := response 500 "text/plain" "oops" 7 in
  let o := onCanned resp [] in
  let w1 := logged world0 [EvDo (plainGet "https://x/w")] in
  fetch "https://x/w" (applyOptions o) world0 = (Got resp, w1)
  /\ Download "https://x/w" o world0 =
       (Returned None (Some (ErrBadStatus (BadStatus 500))),
        logged w1 [EvClose 7])
  /\ BadStatusError_Error (BadStatus 500) = "500 Internal Server Error".
Proof.
  intros resp o w1.
  assert (Hf : fetch "https://x/w" (applyOptions o) world0 = (Got resp, w1))
    by reflexivity.
  split; [exact Hf|].
  destruct (Download_bad_status "https://x/w" o world0 resp w1 Hf
              eq_refl eq_refl) as (Hd & _ & Hm).
  - cbn. lia.
  - split; [exact Hd | exact Hm].
Defined.

(** C2, where the code parts from it.  A first call with a cache
    configured on a 200 answer: the body (stream 7) is read to the end,
    its bytes are stored and handed back as an in-memory stream, and the
    call returns without ever closing stream 7. *)
Theorem Download_cached_body_left_open :
  let resp := response 200 "text/plain" "hello" 7 in
  let o := onCanned resp [WithCache (Some Std.mapCache) "k" 60] in
  Download "https://x/w" o world0 =
    (Returned (Some (NopCloser (NewReader "hello"))) None,
     {| ext := {[ "k" := "hello" ]};
        trace := [EvCacheGet "k"; EvDo (plainGet "https://x/w");
                  EvCacheSet "k" "hello" 60] |})
  /\ EvClose 7 ∉ trace (Download "https://x/w" o world0).2.
Proof.
  intros resp o. split; [reflexivity|].
  intros Hin. repeat (apply elem_of_cons in Hin as [Hin|Hin]; [discriminate Hin|]).
  now apply elem_of_nil in Hin.
Qed.

(** The sibling exit a few lines above closes the same stream: with the
    cache configured and a body that fails while it is read, the read
    error is returned after [body.Close()]. *)
Example Download_cached_read_error_closes :
  let resp := brokenResponse 200 "text/plain" 7 in
  let o := onCanned resp [WithCache (Some Std.mapCache) "k" 60] in
  Download "https://x/w" o world0 =
    (Returned None (Some (ErrExternal "unexpected EOF")),
     logged world0 [EvCacheGet "k"; EvDo (plainGet "https://x/w"); EvClose 7]).
Proof. reflexivity. Qed.

(** The factory on a JSON error body that decodes, and on one that does
    not. *)
Example Download_error_factory_decodes :
  let resp := response 404 "application/json; charset=utf-8" "17" 7 in
  (Download "https://x/w" (onCanned resp [WithErrorType Z]) world0).1
  = Returned None (Some (ErrTyped Z 17%Z)).
Proof. reflexivity. Qed.

Example Download_error_factory_falls_back :
  let resp := response 404 "application/json; charset=utf-8" "<html>" 7 in
  (Download "https://x/w" (onCanned resp [WithErrorType Z]) world0).1
  = Returned None (Some (ErrBadStatus (BadStatus 404))).
Proof. reflexivity. Qed.

(** Two calls on the store-backed cache: the second one has no network
    and requires a content type the first answer did not have. *)
Lemma cache_round_trip_witness :
  let resp := response 200 "text/plain" "hello" 7 in
  let o := onCanned resp [WithCache (Some Std.mapCache) "k" 60] in
  let o2 := [WithCache (Some Std.mapCache) "k" 5;
             WithAcceptContentType "application/json"] in
  let rc := NopCloser (NewReader "hello") in
  let w' := {| ext := ({[ "k" := "hello" ]} : Std.Store);
               trace := [EvCacheGet "k"; EvDo (plainGet "https://x/w");
                         EvCacheSet "k" "hello" 60] |} in
  Download "https://x/w" o world0 = (Returned (Some rc) None, w')
  /\ Download "https://x/other" o2 w' =
       (Returned (Some rc) None, logged w' [EvCacheGet "k"]).
Proof.
  intros resp o o2 rc w'.
  assert (Hd : Download "https://x/w" o world0 = (Returned (Some rc) None, w'))
    by reflexivity.
  split; [exact Hd|].
  assert (Hmiss : (cache_Get Std.mapCache (CacheKey (applyOptions o))
                     (ext world0)).1.2 <> None) by (cbn; discriminate).
  destruct (cache_round_trip "https://x/w" o world0 Std.mapCache rc w'
              eq_refl Hmiss Hd) as [_ Hsecond].
  exact (Hsecond "https://x/other" o2 w' (ext w') eq_refl eq_refl eq_refl).
Defined.

(** C5 as stated fails: a second [WithHeader] for the same key does not
    append to the first, it replaces it. *)
Lemma WithHeader_twice_overwrites :
  let o : list (DownloadOption Std.Store) :=
    [WithHeader "X" "a" []; WithHeader "X" "b" []] in
  configuredValues (applyOptions o) "X" = ["b"]
  /\ configuredValues (applyOptions o) "X" <> ["a"; "b"].
Proof. intros o. split; [reflexivity | discriminate]. Qed.

Example WithHeader_set_then_set :
  configuredValues
    (applyOptions (Ext := Std.Store)
       [WithHeader "X" "a" []; WithHeader "X" "c" []]) "X" = ["c"].
Proof. exact (WithHeader_values [WithHeader "X" "a" []] "X" "c" []). Qed.

Example WithHeader_one_call :
  configuredValues
    (applyOptions (Ext := Std.Store) [WithHeader "X" "a" ["b"]]) "X"
  = ["a"; "b"].
Proof. exact (WithHeader_values [] "X" "a" ["b"]). Qed.

(** C6 as stated fails: flag set, no factory, no accept type, and yet an
    error and no body, when a cache is configured and the body fails
    while it is read for the write-through. *)
Lemma Download_ignore_status_read_error :
  let resp := brokenResponse 500 "text/plain" 7 in
  let o := onCanned resp [WithCache (Some Std.mapCache) "k" 60;
                          WithIgnoreStatusCode] in
  let w1 := logged world0 [EvCacheGet "k"; EvDo (plainGet "https://x/w")] in
  IgnoreStatusCode (applyOptions o) = true
  /\ GenError (applyOptions o) = None
  /\ AcceptContentType (applyOptions o) = ""
  /\ fetch "https://x/w" (applyOptions o) world0 = (Got resp, w1)
  /\ Download "https://x/w" o world0 =
       (Returned None (Some (ErrExternal "unexpected EOF")),
        logged w1 [EvClose 7]).
Proof. intros resp o w1. repeat split; reflexivity. Qed.

(** A 500 answer under the flag, without and with a cache. *)
Lemma Download_ignore_status_witness :
  let resp := response 500 "text/plain" "oops" 7 in
  let o := onCanned resp [WithIgnoreStatusCode] in
  let o' := onCanned resp [WithIgnoreStatusCode;
                           WithCache (Some Std.mapCache) "k" 60] in
  Download "https://x/w" o world0 =
    (Returned (Some (RespBody (resp_Body resp))) None,
     logged world0 [EvDo (plainGet "https://x/w")])
  /\ Download "https://x/w" o' world0 =
       (Returned (Some (NopCloser (NewReader "oops"))) None,
        {| ext := {[ "k" := "oops" ]};
           trace := [EvCacheGet "k"; EvDo (plainGet "https://x/w");
                     EvCacheSet "k" "oops" 60] |}).
Proof.
  intros resp o o'. split.
  - exact (Download_ignore_status "https://x/w" o world0 resp
             (logged world0 [EvDo (plainGet "https://x/w")])
             eq_refl eq_refl eq_refl (or_introl eq_refl)).
  - exact (Download_ignore_status "https://x/w" o' world0 resp
             (logged world0 [EvCacheGet "k"; EvDo (plainGet "https://x/w")])
             eq_refl eq_refl eq_refl (or_introl eq_refl) eq_refl).
Defined.


(** The JSON entry point on a 200 answer that decodes, on one that does
    not, and on a 500 answer without an error factory. *)
Lemma DownloadJSON_Download_witness :
  let url := "https://x/w" in
  let w1 := logged world0 [EvDo (plainGet url)] in
  DownloadJSON Z url (onCanned (response 200 "application/json" "42" 7) [])
    world0
  = (Returned (Some 42%Z) None, logged w1 [EvClose 7])
  /\ DownloadJSON Z url (onCanned (response 200 "application/json" "{}" 7) [])
       world0
     = (Returned None (Some (ErrExternal "json: cannot unmarshal")),
        logged w1 [EvClose 7])
  /\ DownloadJSON Z url (onCanned (response 500 "application/json" "42" 7) [])
       world0
     = (Returned None (Some (ErrBadStatus (BadStatus 500))),
        logged w1 [EvClose 7]).
Proof.
  intros url w1. split; [|split].
  - exact (DownloadJSON_Download Z url
             (onCanned (response 200 "application/json" "42" 7) []) world0
             (Returned (Some (RespBody (resp_Body
                (response 200 "application/json" "42" 7)))) None)
             w1 eq_refl).
  - exact (DownloadJSON_Download Z url
             (onCanned (response 200 "application/json" "{}" 7) []) world0
             (Returned (Some (RespBody (resp_Body
                (response 200 "application/json" "{}" 7)))) None)
             w1 eq_refl).
  - exact (DownloadJSON_Download Z url
             (onCanned (response 500 "application/json" "42" 7) []) world0
             (Returned None (Some (ErrBadStatus (BadStatus 500))))
             (logged w1 [EvClose 7]) eq_refl).
Defined.


Example applyOptions_nil_arguments :
  let o : list (DownloadOption Std.Store) :=
    [WithContext (Some (Derived 1)); WithContext None; WithClient None] in
  Ctx (applyOptions o) = Some Background
  /\ Client (applyOptions o) = Some DefaultClient.
Proof. split; reflexivity. Qed.


(* ===================================================================== *)
(** ** Further properties at work *)
(* ===================================================================== *)

Lemma Download_good_status_witness :
  let url := "https://x/w" in
  let resp := response 204 "text/plain" "hello" 7 in
  let o := onCanned resp [WithErrorType Z] in
  Download url o world0 =
    (Returned (Some (RespBody (resp_Body resp))) None,
     logged world0 [EvDo (plainGet url)]).
Proof.
  intros url resp o.
  assert (Hc : (200 <= resp_StatusCode resp < 400)%Z) by (cbn; lia).
  exact (Download_good_status url o world0 resp
           (logged world0 [EvDo (plainGet url)])
           eq_refl Hc (or_introl eq_refl) eq_refl).
Defined.

Lemma Download_failure_closes_body_witness :
  let url := "https://x/w" in
  let resp := response 200 "text/plain" "hello" 7 in
  let o := onCanned resp [WithAcceptContentType "application/json";
                          WithCache (Some Std.mapCache) "k" 60] in
  let w1 := logged world0 [EvCacheGet "k"; EvDo (plainGet url)] in
  let w' := logged world0 [EvCacheGet "k"; EvDo (plainGet url); EvClose 7] in
  Download url o world0 =
    (Returned None (Some (ErrNew "bad content-type: text/plain")), w')
  /\ w' = logged w1 [EvClose 7].
Proof.
  intros url resp o w1 w'.
  assert (Hd : Download url o world0 =
               (Returned None (Some (ErrNew "bad content-type: text/plain")), w'))
    by reflexivity.
  split; [exact Hd|].
  exact (Download_failure_closes_body url o world0 resp w1 _ w' eq_refl Hd).
Defined.

Lemma Download_transport_error_witness :
  let url := "https://x/w" in
  let o : list (DownloadOption Std.Store) :=
    [WithCache (Some Std.mapCache) "k" 60] in
  let w0 := logged world0 [EvCacheGet "k"] in
  gateMisses (applyOptions o) world0 w0
  /\ Download url o world0 =
       (Returned None
          (Some (ErrExternal "dial tcp: network is unreachable")),
        logged world0 [EvCacheGet "k"; EvDo (plainGet url)]).
Proof.
  intros url o w0.
  assert (Hg : gateMisses (applyOptions o) world0 w0)
    by (split; [cbn; discriminate | reflexivity]).
  split; [exact Hg|].
  exact (Download_transport_error url o world0 w0 (plainGet url)
           Std.offlineClient
           (ErrExternal "dial tcp: network is unreachable") ∅
           Hg eq_refl eq_refl eq_refl).
Defined.

Lemma Download_request_error_witness :
  let url := "https://x/w" in
  let o := onCanned (response 200 "text/plain" "hello" 7)
             [WithMethod "BAD METHOD"] in
  Download url o world0 =
    (Returned None (Some (ErrExternal "net/http: invalid method BAD METHOD")),
     world0).
Proof.
  intros url o.
  exact (Download_request_error url o world0 world0 _ eq_refl eq_refl).
Defined.

Example WithHeader_lookup_alias :
  configuredValues
    (WithHeader "content-type" "text/plain" []
       (DefaultDownloadOptions (Ext := Std.Store))) "Content-Type"
  = ["text/plain"].
Proof. reflexivity. Qed.

Lemma WithHeader_compose_witness :
  let do := DefaultDownloadOptions (Ext := Std.Store) in
  WithHeader "X-A" "2" [] (WithHeader "x-a" "1" ["1b"] do)
  = WithHeader "X-A" "2" [] do
  /\ WithHeader "X-B" "2" [] (WithHeader "X-A" "1" [] do)
     = WithHeader "X-A" "1" [] (WithHeader "X-B" "2" [] do).
Proof.
  intros do. split.
  - destruct (WithHeader_compose "x-a" "1" ["1b"] "X-A" "2" [] do) as [Hsame _].
    apply Hsame. reflexivity.
  - destruct (WithHeader_compose "X-A" "1" [] "X-B" "2" [] do) as [_ Hdiff].
    apply Hdiff. discriminate.
Defined.

Lemma buildRequest_headers_witness :
  let url := "https://x/w" in
  let opts := applyOptions (Ext := Std.Store)
                [WithHeader "content-type" "text/plain" [];
                 WithHeader "x-token" "t" ["u"];
                 WithBody (Some (NewReader "{}")) "application/json";
                 WithMethod "POST"] in
  exists req,
    buildRequest url opts = inr req
    /\ req_method req = "POST"
    /\ Header_Values (req_header req) "Content-Type" = ["application/json"]
    /\ req_header req !! "X-Token" = Some ["t"; "u"].
Proof.
  intros url opts.
  assert (Hn : NewRequestWithContext (Ctx opts) (Method opts) url (Body opts)
               = inr {| req_ctx := Background; req_method := "POST";
                        req_url := url; req_body := Some (NewReader "{}");
                        req_header := ∅ |}) by reflexivity.
  destruct (buildRequest_headers url opts _ Hn)
    as (req & Hb & Hsame & Hct & Hk).
  exists req. split; [exact Hb|].
  split; [exact (f_equal (fun t => t.1.1.2) Hsame)|]. split.
  - apply Hct. discriminate.
  - apply Hk; [reflexivity | right; discriminate].
Defined.

Lemma Download_sends_built_request_witness :
  let url := "https://x/w" in
  let o := onCanned (response 500 "text/plain" "oops" 7)
             [WithHeader "x-token" "t" []] in
  let req := {| req_ctx := Background; req_method := "GET"; req_url := url;
                req_body := None;
                req_header := {[ "X-Token" := ["t"] ]} |} in
  trace (Download url o world0).2 = [EvDo req; EvClose 7]
  /\ buildRequest url (applyOptions o) = inr req.
Proof.
  intros url o req.
  assert (Htr : trace (Download url o world0).2
                = (trace world0 ++ [EvDo req; EvClose 7])%list) by reflexivity.
  split; [exact Htr|].
  exact (Download_sends_built_request url o world0 [EvDo req; EvClose 7] req
           Htr (or_introl eq_refl)).
Defined.

Lemma Download_factory_overrides_flag_witness :
  let url := "https://x/w" in
  let resp := response 404 "application/json" "17" 7 in
  let o := onCanned resp [WithErrorType Z; WithIgnoreStatusCode] in
  Download url o world0 =
    (Returned None (Some (ErrTyped Z 17%Z)),
     logged world0 [EvDo (plainGet url); EvClose 7]).
Proof.
  intros url resp o.
  assert (Hc : ¬ (200 <= resp_StatusCode resp < 400)%Z) by (cbn; lia).
  exact (Download_factory_overrides_flag url o world0 resp
           (logged world0 [EvDo (plainGet url)]) (errorFactory Z)
           eq_refl Hc eq_refl eq_refl).
Defined.

Lemma Download_factory_skips_non_json_witness :
  let url := "https://x/w" in
  let resp := response 502 "text/html" "17" 7 in
  let o := onCanned resp [WithErrorType Z] in
  Download url o world0 =
    (Returned None (Some (ErrBadStatus (BadStatus 502))),
     logged world0 [EvDo (plainGet url); EvClose 7]).
Proof.
  intros url resp o.
  assert (Hc : ¬ (200 <= resp_StatusCode resp < 400)%Z) by (cbn; lia).
  exact (Download_factory_skips_non_json url o world0 resp
           (logged world0 [EvDo (plainGet url)]) (errorFactory Z)
           eq_refl Hc eq_refl eq_refl eq_refl).
Defined.

Lemma Download_cache_write_best_effort_witness :
  let url := "https://x/w" in
  let resp := response 200 "text/plain" "hello" 7 in
  let o := onCanned resp [WithCache (Some Std.readOnlyCache) "k" 60] in
  cache_Set Std.readOnlyCache "k" "hello" 60%Z (∅ : Std.Store)
  = (Some (ErrExternal "cache: read-only"), ∅)
  /\ Download url o world0 =
       (Returned (Some (NopCloser (NewReader "hello"))) None,
        logged world0 [EvCacheGet "k"; EvDo (plainGet url);
                       EvCacheSet "k" "hello" 60]).
Proof.
  intros url resp o. split; [reflexivity|].
  exact (Download_cache_write_best_effort url o world0 resp
           (logged world0 [EvCacheGet "k"; EvDo (plainGet url)])
           Std.readOnlyCache (Some (ErrExternal "cache: read-only")) ∅
           eq_refl (or_introl eq_refl) (or_introl eq_refl)
           eq_refl eq_refl eq_refl).
Defined.



Lemma DownloadBytes_content_witness :
  let url := "https://x/w" in
  let resp := response 200 "text/plain" "hello" 7 in
  (DownloadBytes url (onCanned resp []) world0).1
  = Returned (Some "hello") None
  /\ (DownloadBytes url
        (onCanned resp [WithCache (Some Std.mapCache) "k" 60]) world0).1
     = Returned (Some "hello") None
  /\ (DownloadBytes url
        (onCanned (brokenResponse 200 "text/plain" 7) []) world0).1
     = Returned None (Some (ErrExternal "unexpected EOF")).
Proof.
  intros url resp. split; [|split].
  - exact (DownloadBytes_content url (onCanned resp []) world0 resp
             (logged world0 [EvDo (plainGet url)])
             eq_refl (or_introl eq_refl) (or_introl eq_refl)).
  - exact (DownloadBytes_content url
             (onCanned resp [WithCache (Some Std.mapCache) "k" 60]) world0 resp
             (logged world0 [EvCacheGet "k"; EvDo (plainGet url)])
             eq_refl (or_introl eq_refl) (or_introl eq_refl)).
  - exact (DownloadBytes_content url
             (onCanned (brokenResponse 200 "text/plain" 7) []) world0
             (brokenResponse 200 "text/plain" 7)
             (logged world0 [EvDo (plainGet url)])
             eq_refl (or_introl eq_refl) (or_introl eq_refl)).
Defined.

Lemma DownloadBytes_closes_body_witness :
  let url := "https://x/w" in
  let resp := response 200 "text/plain" "hello" 7 in
  DownloadBytes url (onCanned resp []) world0
  = (Returned (Some "hello") None,
     logged world0 [EvDo (plainGet url); EvClose 7])
  /\ (DownloadBytes url (onCanned resp []) world0).2
     = logged (logged world0 [EvDo (plainGet url)]) [EvClose 7].
Proof.
  intros url resp. split; [reflexivity|].
  exact (DownloadBytes_closes_body url (onCanned resp []) world0 resp
           (logged world0 [EvDo (plainGet url)]) eq_refl eq_refl).
Defined.

Lemma DownloadJSON_closes_body_witness :
  let url := "https://x/w" in
  let resp := response 200 "application/json" "{}" 7 in
  DownloadJSON Z url (onCanned resp []) world0
  = (Returned None (Some (ErrExternal "json: cannot unmarshal")),
     logged world0 [EvDo (plainGet url); EvClose 7])
  /\ (DownloadJSON Z url (onCanned resp []) world0).2
     = logged (logged world0 [EvDo (plainGet url)]) [EvClose 7].
Proof.
  intros url resp. split; [reflexivity|].
  exact (DownloadJSON_closes_body Z url (onCanned resp []) world0 resp
           (logged world0 [EvDo (plainGet url)]) eq_refl eq_refl).
Defined.

Lemma DownloadJSON_requires_json_witness :
  let url := "https://x/w" in
  let resp := response 200 "text/plain" "42" 7 in
  let o := onCanned resp [WithAcceptContentType "text/plain"] in
  (Download url o world0).1 = Returned (Some (RespBody (resp_Body resp))) None
  /\ DownloadJSON Z url o world0 =
       (Returned None (Some (ErrNew "bad content-type: text/plain")),
        logged world0 [EvDo (plainGet url); EvClose 7]).
Proof.
  intros url resp o. split; [reflexivity|].
  assert (Hp : ParseMediaType (Header_Get (resp_Header resp) "Content-Type")
               <> "application/json") by (cbn; discriminate).
  exact (DownloadJSON_requires_json Z url o world0 resp
           (logged world0 [EvDo (plainGet url)])
           eq_refl (or_introl eq_refl) Hp).
Defined.

Lemma entry_points_cache_hit_witness :
  let url := "https://x/w" in
  let w : World Std.Store := {| ext := {[ "k" := "42" ]}; trace := [] |} in
  let o : list (DownloadOption Std.Store) :=
    [WithCache (Some Std.mapCache) "k" 60] in
  DownloadBytes url o w = (Returned (Some "42") None, logged w [EvCacheGet "k"])
  /\ DownloadJSON Z url o w
     = (Returned (Some 42%Z) None, logged w [EvCacheGet "k"]).
Proof.
  intros url w o.
  exact (entry_points_cache_hit Z url o w Std.mapCache "42" (ext w)
           eq_refl eq_refl).
Defined.

Lemma WithFakeUserAgent_request_witness :
  let url := "https://x/w" in
  let opts := applyOptions (Ext := Std.Store)
                ([WithHeader "user-agent" "curl/8" [];
                  WithBody (Some (NewReader "{}")) "application/json"]
                 ++ [WithFakeUserAgent "Mozilla/5.0"]) in
  exists req,
    buildRequest url opts = inr req
    /\ Header_Values (req_header req) "User-Agent" = ["Mozilla/5.0"].
Proof.
  intros url opts.
  assert (Hn : NewRequestWithContext (Ctx opts) (Method opts) url (Body opts)
               = inr {| req_ctx := Background; req_method := "GET";
                        req_url := url; req_body := Some (NewReader "{}");
                        req_header := ∅ |}) by reflexivity.
  assert (Hk : CanonicalMIMEHeaderKey "User-Agent"
               <> CanonicalMIMEHeaderKey "Content-Type") by (cbn; discriminate).
  exact (WithFakeUserAgent_request url
           [WithHeader "user-agent" "curl/8" [];
            WithBody (Some (NewReader "{}")) "application/json"]
           "Mozilla/5.0" _ Hn (or_intror Hk)).
Defined.

Lemma Download_nil_factory_error_witness :
  let url := "https://x/w" in
  let resp := response 500 "application/json" "{}" 7 in
  let quiet : DownloadOption Std.Store := fun do =>
    {| Ctx := Ctx do; Client := Client do; Cache := Cache do;
       CacheKey := CacheKey do; CacheTTL := CacheTTL do;
       GenError := Some (fun _ _ => None); Method := Method do;
       Body := Body do; BodyContentType := BodyContentType do;
       Header := Header do; AcceptContentType := AcceptContentType do;
       IgnoreStatusCode := IgnoreStatusCode do |} in
  let o := onCanned resp [quiet] in
  Download url o world0 =
    (Returned None None, logged world0 [EvDo (plainGet url); EvClose 7])
  /\ (DownloadBytes url o world0).1 = Panic "nil pointer dereference".
Proof.
  intros url resp quiet o.
  assert (Hc : ¬ (200 <= resp_StatusCode resp < 400)%Z) by (cbn; lia).
  exact (Download_nil_factory_error url o world0 resp
           (logged world0 [EvDo (plainGet url)]) (fun _ _ => None)
           eq_refl Hc eq_refl eq_refl eq_refl).
Defined.
